(** * RoboArm Nexus: the control pipeline of a 2-link planar arm

    A shallow embedding of the TypeScript sources
    - [constants.ts], [types.ts],
    - [services/kinematics.ts]   ([calculateIK], [mapInputToCoordinates]),
    - [services/visionService.ts] ([analyzeGesture]),
    - [components/ArmSimulation.tsx] (forward kinematics of the renderer),
    - [components/ControlPanel.tsx]  ([handleChange]),
    - [App.tsx] (the tracking loop [loop] and the physics tick [updatePhysics]),
    followed by the properties proved about them.

    JavaScript numbers are IEEE-754 doubles.  The code is written once, over
    an interface [JSNumber] of the arithmetic and [Math] operations it uses,
    and read in two models:
    - [Exact]: real numbers with exact arithmetic.  It has no rounding, no
      overflow, no NaN and no signed zero: it is the algorithm the code
      implements, and the geometric statements are proved in it.  What is
      proved in it carries over to the program as far as it is stable under
      rounding: a bound with slack, a value that binary64 computes exactly.
      The value of [Math.floor] where rounding can push its argument
      across a whole number, and an evaluation that overflows, do not;
    - [IEEE]: Rocq's primitive binary64 floats, which compute [+ - * / sqrt]
      and the comparisons bit for bit as a JavaScript engine does.  The
      transcendental [Math] functions, whose results ECMAScript leaves to the
      engine, are a parameter ([Host]).  Statements about NaN are made in it. *)

From Stdlib Require Import Floats.
From Stdlib Require Import ZArith List String Ascii Bool Lia.
From Stdlib Require Import Reals Zfloor Lra.
Import ListNotations.

Set Warnings "-inexact-float".

(** * The numeric interface of the sources *)

Class JSNumber (num : Type) : Type := {
  lit : Z -> num;                     (* an integer literal *)
  add : num -> num -> num;
  sub : num -> num -> num;
  mul : num -> num -> num;
  div : num -> num -> num;
  neg : num -> num;
  ltb : num -> num -> bool;           (* a < b *)
  eqb : num -> num -> bool;           (* a === b *)
  Math_PI : num;
  Math_sqrt : num -> num;
  Math_abs : num -> num;
  Math_floor : num -> num;
  Math_acos : num -> num;
  Math_cos : num -> num;
  Math_sin : num -> num;
  Math_atan2 : num -> num -> num;
  Math_hypot : num -> num -> num;
  Math_max : num -> num -> num;
  Math_min : num -> num -> num
}.

Declare Scope js_scope.
Delimit Scope js_scope with js.
Notation "a + b" := (add a b) : js_scope.
Notation "a - b" := (sub a b) : js_scope.
Notation "a * b" := (mul a b) : js_scope.
Notation "a / b" := (div a b) : js_scope.
Notation "- a" := (neg a) : js_scope.
Notation "a <? b" := (ltb a b) : js_scope.
Notation "a >? b" := (ltb b a) : js_scope.
Notation "a =? b" := (eqb a b) : js_scope.

(** A decimal literal [m/d] ([d] a power of ten): [0.95] is [decimal 95 100].
    In [Exact] it is the rational; in [IEEE] the correctly rounded quotient of
    two exactly represented integers, which is the double the literal denotes. *)
Definition decimal {num : Type} {N : JSNumber num} (m d : Z) : num :=
  (lit m / lit d)%js.

(** * The exact model: real numbers *)

Module ExactReal.
Local Open Scope R_scope.

Definition ltb (a b : R) : bool := if Rlt_dec a b then true else false.
Definition eqb (a b : R) : bool := if Req_dec_T a b then true else false.

(** [Math.floor]: the largest integer not above [x]. *)
Definition floor (x : R) : R := IZR (Zfloor x).

(** [Math.atan2(y, x)], by the cases of ECMAScript (the zeros unsigned): the
    angle of the point [(x, y)], in [(-PI, PI]], and [0] at the origin. *)
Definition atan2 (y x : R) : R :=
  if Rlt_dec 0 x then atan (y / x)
  else if Rlt_dec x 0 then
    (if Rle_dec 0 y then atan (y / x) + PI else atan (y / x) - PI)
  else if Rlt_dec 0 y then PI / 2
  else if Rlt_dec y 0 then - (PI / 2)
  else 0.

Definition hypot (a b : R) : R := sqrt (a * a + b * b).

End ExactReal.

#[export] Instance Exact : JSNumber R := {|
  lit := IZR;
  add := Rplus;
  sub := Rminus;
  mul := Rmult;
  div := Rdiv;
  neg := Ropp;
  ltb := ExactReal.ltb;
  eqb := ExactReal.eqb;
  Math_PI := PI;
  Math_sqrt := sqrt;
  Math_abs := Rabs;
  Math_floor := ExactReal.floor;
  Math_acos := acos;
  Math_cos := cos;
  Math_sin := sin;
  Math_atan2 := ExactReal.atan2;
  Math_hypot := ExactReal.hypot;
  Math_max := Rmax;
  Math_min := Rmin
|}.

(** * The IEEE-754 model: binary64 floats *)

Module IEEE754.
Local Open Scope float_scope.

(** The double nearest to an integer (ties to even). *)
Definition of_Z (z : Z) : float := SF2Prim (binary_normalize prec emax z 0 false).

(** [Math.max] and [Math.min] of two numbers: NaN if either is NaN, and
    [+0] above [-0]. *)
Definition max (a b : float) : float :=
  if is_nan a || is_nan b then nan
  else if a <? b then b
  else if b <? a then a
  else match classify a with NZero => b | _ => a end.

Definition min (a b : float) : float :=
  if is_nan a || is_nan b then nan
  else if a <? b then a
  else if b <? a then b
  else match classify a with NZero => a | _ => b end.

(** [Math.floor].  NaN, the infinities, the zeros and every double of
    magnitude [2^52] or more are their own floor; below that, adding and
    subtracting [2^52] rounds to an integer, one too high when it rounded up. *)
Definition two52 : float := 0x1p+52.

Definition floor (x : float) : float :=
  if is_nan x || is_infinity x || (two52 <=? abs x) || (x =? 0) then x
  else
    let r := if 0 <? x then (x + two52) - two52 else (x - two52) + two52 in
    if x <? r then r - 1 else r.

(** [Math.PI]. *)
Definition PI : float := 0x1.921fb54442d18p+1.

(** The [Math] functions whose results ECMAScript leaves to the engine
    ("implementation-approximated"), with the values it does fix for a NaN
    argument. *)
Record Host : Type := {
  host_acos : float -> float;
  host_cos : float -> float;
  host_sin : float -> float;
  host_atan2 : float -> float -> float;
  host_hypot : float -> float -> float;
  host_acos_NaN : host_acos nan = nan;
  host_cos_NaN : host_cos nan = nan;
  host_sin_NaN : host_sin nan = nan;
  host_atan2_NaN_l : forall x, host_atan2 nan x = nan;
  host_atan2_NaN_r : forall y, host_atan2 y nan = nan
}.

(** The interface is inhabited: a host that answers NaN to everything meets
    the NaN clauses (it is used for nothing else). *)
Definition nanHost : Host := {|
  host_acos := fun _ => nan;
  host_cos := fun _ => nan;
  host_sin := fun _ => nan;
  host_atan2 := fun _ _ => nan;
  host_hypot := fun _ _ => nan;
  host_acos_NaN := eq_refl;
  host_cos_NaN := eq_refl;
  host_sin_NaN := eq_refl;
  host_atan2_NaN_l := fun _ => eq_refl;
  host_atan2_NaN_r := fun _ => eq_refl
|}.

End IEEE754.

Definition IEEE (H : IEEE754.Host) : JSNumber float := {|
  lit := IEEE754.of_Z;
  add := PrimFloat.add;
  sub := PrimFloat.sub;
  mul := PrimFloat.mul;
  div := PrimFloat.div;
  neg := PrimFloat.opp;
  ltb := PrimFloat.ltb;
  eqb := PrimFloat.eqb;
  Math_PI := IEEE754.PI;
  Math_sqrt := PrimFloat.sqrt;
  Math_abs := PrimFloat.abs;
  Math_floor := IEEE754.floor;
  Math_acos := IEEE754.host_acos H;
  Math_cos := IEEE754.host_cos H;
  Math_sin := IEEE754.host_sin H;
  Math_atan2 := IEEE754.host_atan2 H;
  Math_hypot := IEEE754.host_hypot H;
  Math_max := IEEE754.max;
  Math_min := IEEE754.min
|}.

(** * types.ts *)

Record ArmConfig {num : Type} : Type := mkArmConfig {
  segment1Length : num;
  segment2Length : num;
  baseRotation : num
}.
Arguments ArmConfig : clear implicits.
Arguments mkArmConfig {num}.

Record Coordinates {num : Type} : Type := mkCoordinates {
  Coordinates_x : num;
  Coordinates_y : num;
  Coordinates_z : num
}.
Arguments Coordinates : clear implicits.
Arguments mkCoordinates {num}.

Record JointAngles {num : Type} : Type := mkJointAngles {
  base : num;
  shoulder : num;
  elbow : num;
  gripper : num          (* 0 (open) to 100 (closed) *)
}.
Arguments JointAngles : clear implicits.
Arguments mkJointAngles {num}.

Inductive HandGesture : Type := NONE | OPEN_PALM | PINCH | CLOSED_FIST.

Definition HandGesture_eqb (a b : HandGesture) : bool :=
  match a, b with
  | NONE, NONE | OPEN_PALM, OPEN_PALM | PINCH, PINCH | CLOSED_FIST, CLOSED_FIST => true
  | _, _ => false
  end.

Record Ball {num : Type} : Type := mkBall {
  Ball_id : Z;
  Ball_x : num;
  Ball_y : num;
  color : string;
  radius : num;
  isGripped : bool;
  vx : num;
  vy : num
}.
Arguments Ball : clear implicits.
Arguments mkBall {num}.

(** A 2D point: a hand landmark of the vision model (its [z] is never read),
    and the shared pointer sample [inputPosRef]. *)
Record Point {num : Type} : Type := mkPoint {
  Point_x : num;
  Point_y : num
}.
Arguments Point : clear implicits.
Arguments mkPoint {num}.

(** * constants.ts *)

Section Constants.
Context {num : Type} {N : JSNumber num}.

Definition DEFAULT_ARM_CONFIG : ArmConfig num :=
  {| segment1Length := lit 150; segment2Length := lit 120; baseRotation := lit 0 |}.

Definition CANVAS_WIDTH : num := lit 600.
Definition CANVAS_HEIGHT : num := lit 400.
Definition BASE_X : num := lit 300.
Definition BASE_Y : num := lit 350.

Definition INITIAL_BALLS : list (Ball num) :=
  [ mkBall 1 (BASE_X - lit 100)%js (BASE_Y - lit 20)%js "#ef4444" (lit 15) false (lit 0) (lit 0);
    mkBall 2 (BASE_X + lit 120)%js (BASE_Y - lit 20)%js "#3b82f6" (lit 15) false (lit 0) (lit 0);
    mkBall 3 (BASE_X - lit 150)%js (BASE_Y - lit 20)%js "#10b981" (lit 15) false (lit 0) (lit 0);
    mkBall 4 (BASE_X + lit 80)%js (BASE_Y - lit 80)%js "#f59e0b" (lit 15) false (lit 0) (lit 0) ].

End Constants.

(** * services/kinematics.ts *)

Module Kinematics.
Section Kinematics.
Context {num : Type} {N : JSNumber num}.
Local Open Scope js_scope.

(** ** [calculateIK]: one definition per local constant of the function. *)

Section calculateIK.
Variable target : Coordinates num.
Variable config : ArmConfig num.

Let x := Coordinates_x target.
Let y := Coordinates_y target.
Let z := Coordinates_z target.
Let l1 := segment1Length config.
Let l2 := segment2Length config.

Definition baseAngleRad : num := Math_atan2 x z.
Definition baseAngleDeg : num := (baseAngleRad * lit 180) / Math_PI.

Definition dist : num := Math_sqrt (x * x + y * y).
Definition maxReach : num := l1 + l2.
Definition ratio : num := maxReach / dist.

(** [let adjustX = x; let adjustY = y; if (dist > maxReach) { ... }].  The
    [else if (dist < Math.abs(l1 - l2))] branch of the source is empty. *)
Definition adjustX : num := if dist >? maxReach then x * ratio else x.
Definition adjustY : num := if dist >? maxReach then y * ratio else y.

Definition rSquared : num := adjustX * adjustX + adjustY * adjustY.
Definition cosAngle2 : num := (rSquared - l1 * l1 - l2 * l2) / (lit 2 * l1 * l2).
Definition c2 : num := Math_max (- lit 1) (Math_min (lit 1) cosAngle2).
Definition theta2Rad : num := - Math_acos c2.

Definition k1 : num := l1 + l2 * Math_cos theta2Rad.
Definition k2 : num := l2 * Math_sin theta2Rad.
Definition theta1Rad : num := Math_atan2 adjustY adjustX - Math_atan2 k2 k1.

Definition calculateIK : JointAngles num :=
  {| base := Math_floor baseAngleDeg;
     shoulder := Math_floor ((theta1Rad * lit 180) / Math_PI);
     elbow := Math_floor ((theta2Rad * lit 180) / Math_PI);
     gripper := lit 0 |}.


End calculateIK.

(** ** [mapInputToCoordinates] *)

Definition mapInputToCoordinates (normX normY : num) (config : ArmConfig num)
  : Coordinates num :=
  let clampedX := Math_max (lit 0) (Math_min (lit 1) normX) in
  let clampedY := Math_max (lit 0) (Math_min (lit 1) normY) in
  let screenX := clampedX * CANVAS_WIDTH in
  let screenY := clampedY * CANVAS_HEIGHT in
  let x := screenX - BASE_X in
  let y := BASE_Y - screenY in
  let z := lit 0 in
  {| Coordinates_x := x; Coordinates_y := y; Coordinates_z := z |}.

End Kinematics.
End Kinematics.

(** * services/visionService.ts *)

Module VisionService.
Section VisionService.
Context {num : Type} {N : JSNumber num}.
Local Open Scope js_scope.

(** [const tips = [8, 12, 16, 20]]: index, middle, ring and pinky tips. *)
Definition tips : list nat := [8; 12; 16; 20]%nat.

(** The [for (const idx of tips)] loop, with its counter.  [landmarks[idx]]
    is [undefined] past the end of the array, and reading [.x] of it throws a
    TypeError: [None]. *)
Fixpoint countFolded (landmarks : list (Point num)) (wrist : Point num)
  (idxs : list nat) (foldedCount : nat) : option nat :=
  match idxs with
  | [] => Some foldedCount
  | idx :: rest =>
      match nth_error landmarks idx with
      | None => None
      | Some tip =>
          let dist := Math_hypot (Point_x tip - Point_x wrist)
                                 (Point_y tip - Point_y wrist) in
          countFolded landmarks wrist rest
            (if dist <? decimal 25 100 then S foldedCount else foldedCount)
      end
  end.

(** [analyzeGesture(landmarks)]; the argument is [None] when it is [null] or
    [undefined], the result is [None] when the call throws. *)
Definition analyzeGesture (landmarks : option (list (Point num)))
  : option HandGesture :=
  match landmarks with
  | None => Some NONE
  | Some [] => Some NONE
  | Some ls =>
      match nth_error ls 4, nth_error ls 8, nth_error ls 0 with
      | Some thumbTip, Some indexTip, Some wrist =>
          let pinchDist := Math_hypot (Point_x thumbTip - Point_x indexTip)
                                      (Point_y thumbTip - Point_y indexTip) in
          match countFolded ls wrist tips 0 with
          | None => None
          | Some foldedCount =>
              if (3 <=? foldedCount)%nat then Some CLOSED_FIST
              else if pinchDist <? decimal 5 100 then Some PINCH
              else Some OPEN_PALM
          end
      | _, _, _ => None
      end
  end.

(** [drawLandmarks] reads both ends of each connection and then every
    landmark; what it paints is not modelled, only whether it throws. *)
Definition connections : list (nat * nat) :=
  [ (0, 1); (1, 2); (2, 3); (3, 4);
    (0, 5); (5, 6); (6, 7); (7, 8);
    (0, 9); (9, 10); (10, 11); (11, 12);
    (0, 13); (13, 14); (14, 15); (15, 16);
    (0, 17); (17, 18); (18, 19); (19, 20) ]%nat.

Definition defined {A : Type} (o : option A) : bool :=
  match o with Some _ => true | None => false end.

Definition drawLandmarks (landmarks : list (Point num)) : option unit :=
  if forallb (fun c => defined (nth_error landmarks (fst c))
                       && defined (nth_error landmarks (snd c))) connections
  then Some tt else None.

End VisionService.
End VisionService.

(** * components/ArmSimulation.tsx: forward kinematics for the drawing *)

Module ArmSimulation.
Section ArmSimulation.
Context {num : Type} {N : JSNumber num}.
Local Open Scope js_scope.

Record Positions : Type := mkPositions {
  p0 : Point num;
  p1 : Point num;
  p2 : Point num
}.

Definition toRad (deg : num) : num := (deg * Math_PI) / lit 180.

(** The [useMemo] body: the joints in SVG coordinates (y grows downward). *)
Definition positions (angles : JointAngles num) (config : ArmConfig num)
  : Positions :=
  let p0 := {| Point_x := BASE_X; Point_y := BASE_Y |} in
  let a1 := shoulder angles in
  let a2 := a1 + elbow angles in
  let p1 := {| Point_x := Point_x p0 + segment1Length config * Math_cos (toRad a1);
               Point_y := Point_y p0 - segment1Length config * Math_sin (toRad a1) |} in
  let p2 := {| Point_x := Point_x p1 + segment2Length config * Math_cos (toRad a2);
               Point_y := Point_y p1 - segment2Length config * Math_sin (toRad a2) |} in
  {| p0 := p0; p1 := p1; p2 := p2 |}.

Definition gripperPos (angles : JointAngles num) (config : ArmConfig num)
  : Point num := p2 (positions angles config).


End ArmSimulation.
End ArmSimulation.

(** * App.tsx *)

Module App.
Section App.
Context {num : Type} {N : JSNumber num}.
Local Open Scope js_scope.

(** The React state and the refs the two loops share. *)
Record AppState : Type := mkAppState {
  config : ArmConfig num;              (* useState *)
  target : Coordinates num;            (* useState *)
  angles : JointAngles num;            (* useState *)
  gesture : HandGesture;               (* useState *)
  balls : list (Ball num);             (* useState *)
  inputPosRef : Point num;             (* useRef *)
  lastVideoTimeRef : num;              (* useRef *)
  configRef : ArmConfig num;           (* useRef *)
  gestureRef : HandGesture             (* useRef *)
}.

(** The initial values given to [useState] and [useRef]. *)
Definition initialState : AppState :=
  {| config := DEFAULT_ARM_CONFIG;
     target := mkCoordinates (lit 100) (lit 100) (lit 0);
     angles := mkJointAngles (lit 0) (lit 90) (- lit 90) (lit 0);
     gesture := OPEN_PALM;
     balls := INITIAL_BALLS;
     inputPosRef := mkPoint (decimal 5 10) (decimal 5 10);
     lastVideoTimeRef := - lit 1;
     configRef := DEFAULT_ARM_CONFIG;
     gestureRef := OPEN_PALM |}.

(** [useEffect(() => { configRef.current = config; }, [config])] and the
    same for [gestureRef], run after a render. *)
Definition syncRefs (s : AppState) : AppState :=
  {| config := config s; target := target s; angles := angles s;
     gesture := gesture s; balls := balls s; inputPosRef := inputPosRef s;
     lastVideoTimeRef := lastVideoTimeRef s;
     configRef := config s; gestureRef := gesture s |}.

(** ** The tracking loop *)

(** What one call of [loop] finds outside the state: the video element, the
    readiness flag, the canvas context and what [detectHands] returns
    ([None] for [null], else [detections.landmarks]). *)
Record Video : Type := mkVideo {
  readyState : Z;
  currentTime : num
}.

Record Frame : Type := mkFrame {
  video : option Video;                          (* videoRef.current *)
  isVisionReady : bool;
  canvasContext : bool;                          (* ctx && canvasRef.current *)
  detections : option (list (list (Point num)))
}.

Definition setLastVideoTime (t : num) (s : AppState) : AppState :=
  {| config := config s; target := target s; angles := angles s;
     gesture := gesture s; balls := balls s; inputPosRef := inputPosRef s;
     lastVideoTimeRef := t;
     configRef := configRef s; gestureRef := gestureRef s |}.

Definition setGesture (g : HandGesture) (s : AppState) : AppState :=
  {| config := config s; target := target s; angles := angles s;
     gesture := g; balls := balls s; inputPosRef := inputPosRef s;
     lastVideoTimeRef := lastVideoTimeRef s;
     configRef := configRef s; gestureRef := gestureRef s |}.

Definition setInputPos (p : Point num) (s : AppState) : AppState :=
  {| config := config s; target := target s; angles := angles s;
     gesture := gesture s; balls := balls s; inputPosRef := p;
     lastVideoTimeRef := lastVideoTimeRef s;
     configRef := configRef s; gestureRef := gestureRef s |}.

(** One animation frame of [loop]; [None] when it throws.  Scheduling the
    next frame ([requestAnimationFrame]) is left to the caller. *)
Definition loop (f : Frame) (s : AppState) : option AppState :=
  match video f with
  | None => Some s
  | Some v =>
      if (2 <=? readyState v)%Z && isVisionReady f then
        if negb (currentTime v =? lastVideoTimeRef s) then
          let s := setLastVideoTime (currentTime v) s in
          if canvasContext f then
            match detections f with
            | Some (landmarks :: _) =>
                match VisionService.drawLandmarks landmarks with
                | None => None
                | Some _ =>
                    match nth_error landmarks 5 with
                    | None => None
                    | Some pointer =>
                        let normX := lit 1 - Point_x pointer in
                        let normY := Point_y pointer in
                        match VisionService.analyzeGesture (Some landmarks) with
                        | None => None
                        | Some currentGesture =>
                            let s :=
                              if negb (HandGesture_eqb currentGesture (gestureRef s))
                              then setGesture currentGesture s else s in
                            let s :=
                              if negb (HandGesture_eqb currentGesture CLOSED_FIST)
                              then setInputPos {| Point_x := normX; Point_y := normY |} s
                              else s in
                            Some s
                        end
                    end
                end
            | _ => Some s
            end
          else Some s
        else Some s
      else Some s
  end.

(** ** The physics tick *)

(** The callback of [prevBalls.map] in [updatePhysics]. *)
Definition updateBall (gripperVisX gripperVisY : num) (isGripping : bool)
  (ball : Ball num) : Ball num :=
  let x := Ball_x ball in
  let y := Ball_y ball in
  let vx := vx ball in
  let vy := vy ball in
  let isGripped := isGripped ball in
  let dist := Math_hypot (x - gripperVisX) (y - gripperVisY) in
  let gripThreshold := lit 30 in
  let isGripped := if isGripping && (dist <? gripThreshold) then true else isGripped in
  let isGripped := if negb isGripping then false else isGripped in
  if isGripped then
    let x := gripperVisX in
    let y := gripperVisY + lit 15 in
    let vx := lit 0 in
    let vy := lit 0 in
    mkBall (Ball_id ball) x y (color ball) (radius ball) isGripped vx vy
  else
    let vy := vy + decimal 5 10 in
    let vx := vx * decimal 95 100 in
    let y := y + vy in
    let x := x + vx in
    let hitsFloor := y >? BASE_Y - radius ball in
    let vy := if hitsFloor then vy * (- decimal 6 10) else vy in
    let vx := if hitsFloor then vx * decimal 8 10 else vx in
    let y := if hitsFloor then BASE_Y - radius ball else y in
    let vx := if (x <? lit 0) || (x >? lit 600) then vx * (- lit 1) else vx in
    mkBall (Ball_id ball) x y (color ball) (radius ball) isGripped vx vy.

Definition isGripping (gest : HandGesture) : bool := HandGesture_eqb gest PINCH.

Definition gripperVisX (newCoords : Coordinates num) : num :=
  BASE_X + Coordinates_x newCoords.
Definition gripperVisY (newCoords : Coordinates num) : num :=
  BASE_Y - Coordinates_y newCoords.

Definition updatePhysics (s : AppState) : AppState :=
  let cfg := configRef s in
  let gest := gestureRef s in
  let inp := inputPosRef s in
  let newCoords := Kinematics.mapInputToCoordinates (Point_x inp) (Point_y inp) cfg in
  let calculatedAngles := Kinematics.calculateIK newCoords cfg in
  let calculatedAngles :=
    mkJointAngles (base calculatedAngles) (shoulder calculatedAngles)
      (elbow calculatedAngles) (if isGripping gest then lit 100 else lit 0) in
  {| config := config s;
     target := newCoords;
     angles := calculatedAngles;
     gesture := gesture s;
     balls := map (updateBall (gripperVisX newCoords) (gripperVisY newCoords)
                     (isGripping gest)) (balls s);
     inputPosRef := inputPosRef s;
     lastVideoTimeRef := lastVideoTimeRef s;
     configRef := configRef s;
     gestureRef := gestureRef s |}.

End App.
End App.

(** * components/ControlPanel.tsx *)

(** [handleChange] turns the text of a form field into a number with
    [parseFloat(val) || 0]: what it does rests on NaN and on the zeros, so it
    is read in the IEEE model.  [parseFloat] is ECMAScript's, on text whose
    code units are below 256. *)

Module ParseFloat.
Local Open Scope string_scope.
Local Open Scope Z_scope.

(** A character is one code unit below 256.  Of ECMAScript's WhiteSpace and
    LineTerminator these are TAB, LF, VT, FF, CR, SPACE and NBSP (U+00A0);
    the others (U+1680, U+2000 to U+200A, U+2028, U+2029, U+202F, U+205F,
    U+3000, U+FEFF) are above 255 and not in a [string]. *)
Definition isWhiteSpace (c : ascii) : bool :=
  let n := Z.of_nat (nat_of_ascii c) in
  ((9 <=? n) && (n <=? 13)) || (n =? 32) || (n =? 160).

Definition digitValue (c : ascii) : option Z :=
  let n := Z.of_nat (nat_of_ascii c) in
  if (48 <=? n) && (n <=? 57) then Some (n - 48) else None.

Fixpoint trimStart (s : string) : string :=
  match s with
  | String c rest => if isWhiteSpace c then trimStart rest else s
  | EmptyString => s
  end.

(** The longest run of decimal digits at the head of [s], read onto [acc]:
    its value, how many digits it has, and what follows it. *)
Fixpoint DecimalDigits (s : string) (acc : Z) (count : Z) : Z * Z * string :=
  match s with
  | String c rest =>
      match digitValue c with
      | Some d => DecimalDigits rest (10 * acc + d) (count + 1)
      | None => (acc, count, s)
      end
  | EmptyString => (acc, count, s)
  end.

Definition Sign (s : string) : bool * string :=
  match s with
  | String "+" rest => (false, rest)
  | String "-" rest => (true, rest)
  | _ => (false, s)
  end.

(** [ExponentPart], when one stands at the head of [s]: [e] or [E], an
    optional sign and at least one digit.  Otherwise the exponent is 0. *)
Definition ExponentPart (s : string) : Z :=
  match s with
  | String c rest =>
      if (Ascii.eqb c "e" || Ascii.eqb c "E")%bool then
        let '(negative, rest) := Sign rest in
        let '(e, n, _) := DecimalDigits rest 0 0 in
        if n =? 0 then 0 else if negative then - e else e
      else 0
  | EmptyString => 0
  end.

Inductive Literal : Type :=
| LNaN
| LInfinity (negative : bool)
| LDecimal (negative : bool) (mantissa exponent10 : Z).

(** The longest prefix of [s] that is a [StrDecimalLiteral], as the number
    it denotes ([mantissa * 10 ^ exponent10], signed); [LNaN] when no prefix
    is one. *)
Definition StrDecimalLiteral (s : string) : Literal :=
  let '(negative, s) := Sign s in
  if prefix "Infinity" s then LInfinity negative
  else
    let '(ip, ni, afterInt) := DecimalDigits s 0 0 in
    let '(m, nf, afterFrac) :=
      match afterInt with
      | String "." rest => DecimalDigits rest ip 0
      | _ => (ip, 0, afterInt)
      end in
    if (ni =? 0) && (nf =? 0) then LNaN
    else LDecimal negative m (ExponentPart afterFrac - nf).

(** The double nearest to [m * 10 ^ e] ([m > 0]), ties to even.  For a
    negative [e] the quotient is taken to 64 bits or more, with a sticky
    last bit, and rounded once. *)
Definition round (m e : Z) : float :=
  if 0 <=? e then SF2Prim (binary_normalize prec emax (m * 10 ^ e) 0 false)
  else
    let d := 10 ^ (- e) in
    let s := Z.max 0 (64 + Z.log2 d - Z.log2 m) in
    let q := (m * 2 ^ s) / d in
    let sticky := if (m * 2 ^ s) mod d =? 0 then 0 else 1 in
    SF2Prim (binary_normalize prec emax (2 * q + sticky) (- (s + 1)) false).

Definition value (l : Literal) : float :=
  match l with
  | LNaN => nan
  | LInfinity negative => if negative then neg_infinity else infinity
  | LDecimal negative m e =>
      let v := if m =? 0 then 0%float else round m e in
      if negative then (- v)%float else v
  end.

Definition parseFloat (s : string) : float :=
  value (StrDecimalLiteral (trimStart s)).

End ParseFloat.

Module ControlPanel.
Local Open Scope float_scope.

(** [keyof ArmConfig]. *)
Inductive ArmConfigKey : Type :=
| key_segment1Length
| key_segment2Length
| key_baseRotation.

Definition get (key : ArmConfigKey) (config : ArmConfig float) : float :=
  match key with
  | key_segment1Length => segment1Length config
  | key_segment2Length => segment2Length config
  | key_baseRotation => baseRotation config
  end.

(** [{ ...config, [key]: v }]. *)
Definition set (key : ArmConfigKey) (v : float) (config : ArmConfig float)
  : ArmConfig float :=
  match key with
  | key_segment1Length =>
      mkArmConfig v (segment2Length config) (baseRotation config)
  | key_segment2Length =>
      mkArmConfig (segment1Length config) v (baseRotation config)
  | key_baseRotation =>
      mkArmConfig (segment1Length config) (segment2Length config) v
  end.

(** A number is falsy when it is NaN, [+0] or [-0]. *)
Definition truthy (v : float) : bool := negb (is_nan v || (v =? 0)).

(** [a || b] on numbers. *)
Definition or_else (a b : float) : float := if truthy a then a else b.

(** [handleChange(key, val)]: the config handed to [setConfig]. *)
Definition handleChange (config : ArmConfig float) (key : ArmConfigKey)
  (val : string) : ArmConfig float :=
  set key (or_else (ParseFloat.parseFloat val) 0) config.

End ControlPanel.

(** * App.tsx, continued: the manual fallback *)

(** [enum Tab] of types.ts. *)
Inductive Tab : Type := SIMULATION | CODE_GEN | SETTINGS.

Definition Tab_eqb (a b : Tab) : bool :=
  match a, b with
  | SIMULATION, SIMULATION | CODE_GEN, CODE_GEN | SETTINGS, SETTINGS => true
  | _, _ => false
  end.

Module AppEvents.
Section AppEvents.
Context {num : Type} {N : JSNumber num}.
Local Open Scope js_scope.

(** What [handleMouseMove] reads of its event: the mouse position and
    [e.currentTarget.getBoundingClientRect()]. *)
Record MouseEvent : Type := mkMouseEvent {
  clientX : num;
  clientY : num;
  rect_left : num;
  rect_top : num;
  rect_width : num;
  rect_height : num
}.

(** The handlers close over the React state [activeTab] and
    [isVisionReady], and [handleMouseMove] over [gesture]. *)
Definition handleMouseMove (activeTab : Tab) (isVisionReady : bool)
  (e : MouseEvent) (s : App.AppState) : App.AppState :=
  if negb (Tab_eqb activeTab SIMULATION) then s
  else if negb (HandGesture_eqb (App.gesture s) CLOSED_FIST) && negb isVisionReady then
    let x := (clientX e - rect_left e) / rect_width e in
    let y := (clientY e - rect_top e) / rect_height e in
    App.setInputPos
      {| Point_x := Math_max (lit 0) (Math_min (lit 1) x);
         Point_y := Math_max (lit 0) (Math_min (lit 1) y) |} s
  else s.

Definition handleMouseDown (isVisionReady : bool) (s : @App.AppState num)
  : App.AppState :=
  if negb isVisionReady then App.setGesture PINCH s else s.

Definition handleMouseUp (isVisionReady : bool) (s : @App.AppState num)
  : App.AppState :=
  if negb isVisionReady then App.setGesture OPEN_PALM s else s.

(** The pointer sample is written (by the tracking loop or by the mouse),
    then the physics timer fires. *)
Definition tickAt (s : App.AppState) (pointer : Point num) : App.AppState :=
  App.updatePhysics (App.setInputPos pointer s).

End AppEvents.
End AppEvents.

(** * The serial service: class [SerialController] *)

(** [SerialController].  Each [async] method is taken as one step, run to
    its end; what the browser and the device answer (support, the port the
    user picks, whether [open], [write] and [close] resolve) is an argument.
    The world outside the object is what was written to ports and how often
    [console.error] and [alert] were called. *)
Module SerialService.
Local Open Scope string_scope.

Definition PortId : Type := nat.

Record SerialController : Type := mkSerialController {
  port : option PortId;            (* this.port *)
  writer : option PortId;          (* this.writer, of the stream piped to that port *)
  written : list (PortId * string);  (* chunks accepted by a writer, oldest first *)
  errors : nat;                    (* console.error calls *)
  alerts : nat                     (* alert calls *)
}.

(** [new SerialController()]. *)
Definition serialInstance : SerialController :=
  {| port := None; writer := None; written := []; errors := 0; alerts := 0 |}.

Record ConnectEnv : Type := mkConnectEnv {
  serialSupported : bool;          (* 'serial' in navigator *)
  requestPort : option PortId;     (* the port picked; None: the promise rejects *)
  openResolves : bool;             (* port.open({ baudRate: 115200 }) *)
  writable : bool                  (* port.writable is not null *)
}.

Definition logError (c : SerialController) : SerialController :=
  {| port := port c; writer := writer c; written := written c;
     errors := S (errors c); alerts := alerts c |}.

(** [connect()]: the controller afterwards and the boolean it resolves to. *)
Definition connect (env : ConnectEnv) (c : SerialController)
  : SerialController * bool :=
  if negb (serialSupported env) then
    ({| port := port c; writer := writer c; written := written c;
        errors := errors c; alerts := S (alerts c) |}, false)
  else
    match requestPort env with
    | None => (logError c, false)
    | Some p =>
        let c := {| port := Some p; writer := writer c; written := written c;
                    errors := errors c; alerts := alerts c |} in
        if negb (openResolves env) then (logError c, false)
        else if writable env then
          ({| port := port c; writer := Some p; written := written c;
              errors := errors c; alerts := alerts c |}, true)
        else (c, false)
    end.

(** [sendData(data)]; [writeResolves] is the answer of [writer.write]. *)
Definition sendData (writeResolves : bool) (data : string) (c : SerialController)
  : SerialController :=
  match writer c with
  | None => c
  | Some p =>
      if writeResolves then
        {| port := port c; writer := writer c;
           written := written c ++ [(p, data ++ String (ascii_of_nat 10) EmptyString)];
           errors := errors c; alerts := alerts c |}
      else logError c
  end.

(** [disconnect()]: the controller afterwards, and whether the promise
    resolved ([false]: a [close] rejected and the method stopped there). *)
Definition disconnect (writerCloses portCloses : bool) (c : SerialController)
  : SerialController * bool :=
  let afterWriter :=
    match writer c with
    | None => Some c
    | Some _ =>
        if writerCloses then
          Some {| port := port c; writer := None; written := written c;
                  errors := errors c; alerts := alerts c |}
        else None
    end in
  match afterWriter with
  | None => (c, false)
  | Some c =>
      match port c with
      | None => (c, true)
      | Some _ =>
          if portCloses then
            ({| port := None; writer := writer c; written := written c;
                errors := errors c; alerts := alerts c |}, true)
          else (c, false)
      end
  end.

(** A call of one of the three methods, with the answers it gets. *)
Inductive Call : Type :=
| Connect (env : ConnectEnv)
| SendData (writeResolves : bool) (data : string)
| Disconnect (writerCloses portCloses : bool).

Definition step (c : SerialController) (call : Call) : SerialController :=
  match call with
  | Connect env => fst (connect env c)
  | SendData writeResolves data => sendData writeResolves data c
  | Disconnect writerCloses portCloses => fst (disconnect writerCloses portCloses c)
  end.

Definition run (calls : list Call) (c : SerialController) : SerialController :=
  fold_left step calls c.

(** The connect calls of a session that resolved to [true]. *)
Fixpoint connected (calls : list Call) (c : SerialController) : bool :=
  match calls with
  | [] => false
  | call :: rest =>
      match call with
      | Connect env => snd (connect env c) || connected rest (step c call)
      | _ => connected rest (step c call)
      end
  end.

End SerialService.

(** * Scenes and predicates of the statements *)

Section Scenes.
Local Open Scope R_scope.

(** The initial scene with the first ball in the gripper, under PINCH. *)
Definition heldState : App.AppState :=
  {| App.config := DEFAULT_ARM_CONFIG;
     App.target := mkCoordinates 100 100 0;
     App.angles := mkJointAngles 0 90 (- 90) 100;
     App.gesture := PINCH;
     App.balls := [ mkBall 1 200 215 "#ef4444" 15 true 0 0;
                    mkBall 2 420 330 "#3b82f6" 15 false 0 0 ];
     App.inputPosRef := mkPoint (1 / 3) (1 / 2);
     App.lastVideoTimeRef := - 1;
     App.configRef := DEFAULT_ARM_CONFIG;
     App.gestureRef := PINCH |}.

(** The first ball lying on the floor, the second in the air, the gripper
    open. *)
Definition floorState : App.AppState :=
  {| App.config := DEFAULT_ARM_CONFIG;
     App.target := mkCoordinates 100 100 0;
     App.angles := mkJointAngles 0 90 (- 90) 0;
     App.gesture := OPEN_PALM;
     App.balls := [ mkBall 1 200 (350 - 15) "#ef4444" 15 false 0 0;
                    mkBall 2 420 100 "#3b82f6" 15 false 3 0 ];
     App.inputPosRef := mkPoint (1 / 2) (1 / 2);
     App.lastVideoTimeRef := - 1;
     App.configRef := DEFAULT_ARM_CONFIG;
     App.gestureRef := OPEN_PALM |}.

(** A fist so tight that all 21 landmarks fall on one point. *)
Definition fistHand : list (Point R) := repeat (mkPoint (1 / 2) (1 / 2)) 21.

Definition fistFrame : App.Frame :=
  {| App.video := Some {| App.readyState := 4; App.currentTime := 0 |};
     App.isVisionReady := true;
     App.canvasContext := true;
     App.detections := Some [fistHand] |}.

End Scenes.

(** A chunk that is some data followed by one newline. *)
Definition isLine (chunk : SerialService.PortId * string) : Prop :=
  exists data, snd chunk = (data ++ String (ascii_of_nat 10) EmptyString)%string.

(** The first character of a text that [parseFloat] can read a number
    from: a digit, a sign, a dot, or the I of Infinity. *)
Definition startsNumber (c : ascii) : bool :=
  match ParseFloat.digitValue c with
  | Some _ => true
  | None => (Ascii.eqb c "+" || Ascii.eqb c "-" || Ascii.eqb c "." || Ascii.eqb c "I")%bool
  end.

(** * Properties *)

(** ** The exact model: comparisons, floor and [atan2] *)

Section ExactFacts.
Local Open Scope R_scope.

Lemma ltb_true (a b : R) : a < b -> ExactReal.ltb a b = true.
Proof.
  intros H. unfold ExactReal.ltb.
  destruct (Rlt_dec a b); [reflexivity | contradiction].
Qed.

Lemma ltb_false (a b : R) : ~ a < b -> ExactReal.ltb a b = false.
Proof.
  intros H. unfold ExactReal.ltb.
  destruct (Rlt_dec a b); [contradiction | reflexivity].
Qed.

Lemma floor_IZR (z : Z) : ExactReal.floor (IZR z) = IZR z.
Proof. unfold ExactReal.floor. now rewrite ZfloorZ. Qed.


Lemma floor_le (v : R) : ExactReal.floor v <= v.
Proof. unfold ExactReal.floor. apply Zfloor_bound. Qed.


Lemma floor_ge_IZR (z : Z) (v : R) : IZR z <= v -> IZR z <= ExactReal.floor v.
Proof. intros H. unfold ExactReal.floor. apply IZR_le, Zfloor_lub, H. Qed.





End ExactFacts.

(** ** [calculateIK] in the exact model *)

Section ExactIK.
Local Open Scope R_scope.
Variable target : Coordinates R.
Variable config : ArmConfig R.
Let x := Coordinates_x target.
Let y := Coordinates_y target.
Let l1 := segment1Length config.
Let l2 := segment2Length config.















Lemma theta2Rad_eq :
  Kinematics.theta2Rad target config = - acos (Kinematics.c2 target config).
Proof. reflexivity. Qed.


Lemma theta2Rad_bounds : - PI <= Kinematics.theta2Rad target config <= 0.
Proof.
  rewrite theta2Rad_eq.
  pose proof (acos_bound (Kinematics.c2 target config)). lra.
Qed.











Lemma elbow_eq :
  elbow (Kinematics.calculateIK target config)
    = ExactReal.floor (Kinematics.theta2Rad target config * 180 / PI).
Proof. reflexivity. Qed.

Lemma elbow_range :
  -180 <= elbow (Kinematics.calculateIK target config) <= 0.
Proof.
  rewrite elbow_eq.
  pose proof theta2Rad_bounds as [Hlo Hhi].
  pose proof PI_RGT_0 as Hpi.
  set (t := Kinematics.theta2Rad target config) in *.
  assert (Hd : -180 <= t * 180 / PI <= 0).
  { replace (-180) with (- PI * 180 / PI) by (field; lra).
    unfold Rdiv. split.
    - apply Rmult_le_compat_r; [left; apply Rinv_0_lt_compat; lra | nra].
    - assert (0 < / PI) by (apply Rinv_0_lt_compat; lra). nra. }
  split.
  - apply (floor_ge_IZR (-180)). lra.
  - pose proof (floor_le (t * 180 / PI)). lra.
Qed.

End ExactIK.

(** ** Particular values of [atan2], and a small-angle bound *)

Section ExactAngles.
Local Open Scope R_scope.









End ExactAngles.

(** ** [calculateIK] at three targets the reconstruction misses *)

Section ExactAcos.
Local Open Scope R_scope.


End ExactAcos.

Section Origin.
Local Open Scope R_scope.
Let target : Coordinates R := mkCoordinates 0 0 0.
Let config : ArmConfig R := DEFAULT_ARM_CONFIG.







End Origin.

Section Rounding.
Local Open Scope R_scope.
Let target : Coordinates R := mkCoordinates 39999 400 0.
Let config : ArmConfig R := mkArmConfig 20000 20001 0.







End Rounding.

Section Beyond.
Local Open Scope R_scope.
Let target : Coordinates R := mkCoordinates 79998 800 0.
Let config : ArmConfig R := mkArmConfig 20000 20001 0.




End Beyond.

(** ** What flooring the angles costs *)

Section RoundingError.
Local Open Scope R_scope.









End RoundingError.

(** ** The inverse kinematics and its reconstruction (C1, C10) *)

Section KinematicsClaims.
Local Open Scope R_scope.




End KinematicsClaims.

(** C10.  In every number model, [calculateIK] returns the same angles for
    two configs that differ only in [baseRotation]. *)
Theorem calculateIK_ignores_baseRotation :
  forall (num : Type) (N : JSNumber num) (target : Coordinates num)
         (l1 l2 rotation rotation' : num),
    Kinematics.calculateIK target (mkArmConfig l1 l2 rotation)
    = Kinematics.calculateIK target (mkArmConfig l1 l2 rotation').
Proof. reflexivity. Qed.

(** ** [calculateIK] on a segment of length zero (C2) *)

Section IEEEKinematics.
Variable H : IEEE754.Host.
Let N : JSNumber float := IEEE H.
Local Existing Instance N.

Lemma float_sub_nan_r (a : float) : PrimFloat.sub a nan = nan.
Proof.
  rewrite <- (SF2Prim_Prim2SF (PrimFloat.sub a nan)), sub_spec.
  change (Prim2SF nan) with S754_nan.
  destruct (Prim2SF a); reflexivity.
Qed.

Let target : Coordinates float := mkCoordinates (lit 120) (lit 0) (lit 0).
Let config : ArmConfig float := mkArmConfig (lit 0) (lit 120) (lit 0).

(** [(14400 - 0 - 14400) / (2 * 0 * 120)] is [0 / 0]. *)
Lemma zeroSegment_cosAngle2 : Kinematics.cosAngle2 target config = nan.
Proof. vm_compute. reflexivity. Qed.

(** [Math.max(-1, Math.min(1, NaN))] is NaN: the clamp lets it through. *)
Lemma zeroSegment_c2 : Kinematics.c2 target config = nan.
Proof. vm_compute. reflexivity. Qed.

Lemma zeroSegment_theta2Rad : Kinematics.theta2Rad target config = nan.
Proof.
  unfold Kinematics.theta2Rad. rewrite zeroSegment_c2.
  change (PrimFloat.opp (IEEE754.host_acos H nan) = nan).
  rewrite IEEE754.host_acos_NaN. reflexivity.
Qed.

Lemma zeroSegment_theta1Rad : Kinematics.theta1Rad target config = nan.
Proof.
  unfold Kinematics.theta1Rad, Kinematics.k2. rewrite zeroSegment_theta2Rad.
  change (Math_sin nan) with (IEEE754.host_sin H nan).
  rewrite IEEE754.host_sin_NaN.
  change (mul (segment2Length config) nan)
    with (PrimFloat.mul (IEEE754.of_Z 120) nan).
  replace (PrimFloat.mul (IEEE754.of_Z 120) nan) with nan by (vm_compute; reflexivity).
  change (Math_atan2 nan) with (IEEE754.host_atan2 H nan).
  rewrite IEEE754.host_atan2_NaN_l.
  apply float_sub_nan_r.
Qed.

(** C2, where the code departs from it.  In the IEEE model, whatever the
    engine's [Math] functions, the config with [segment1Length = 0] and
    [segment2Length = 120] and the target [(120, 0, 0)] make [calculateIK]
    return NaN for both the elbow and the shoulder: [cosAngle2] is [0 / 0],
    and the clamp to [[-1, 1]] that is there to avoid NaN passes NaN on. *)
Theorem calculateIK_NaN_zero_segment :
  elbow (Kinematics.calculateIK target config) = nan /\
  shoulder (Kinematics.calculateIK target config) = nan.
Proof.
  unfold Kinematics.calculateIK. cbn [elbow shoulder].
  rewrite zeroSegment_theta1Rad, zeroSegment_theta2Rad.
  split; vm_compute; reflexivity.
Qed.

End IEEEKinematics.

(** ** [calculateIK] on segment lengths whose squares overflow (C8) *)

Section IEEEOverflow.
Variable H : IEEE754.Host.
Let N : JSNumber float := IEEE H.
Local Existing Instance N.
Local Open Scope string_scope.

(** Both length fields of the settings panel set to the entry 1e200. *)
Let config : ArmConfig float :=
  ControlPanel.handleChange
    (ControlPanel.handleChange DEFAULT_ARM_CONFIG
       ControlPanel.key_segment1Length "1e200")
    ControlPanel.key_segment2Length "1e200".

(** The target of the first physics tick: the pointer at its initial
    sample, the middle of the canvas. *)
Let target : Coordinates float :=
  Kinematics.mapInputToCoordinates
    (Point_x (App.inputPosRef App.initialState))
    (Point_y (App.inputPosRef App.initialState)) config.

Lemma overflow_config :
  config = mkArmConfig (ParseFloat.parseFloat "1e200") (ParseFloat.parseFloat "1e200")
             (lit 0) /\
  PrimFloat.ltb (lit 0) (ParseFloat.parseFloat "1e200") = true /\
  PrimFloat.ltb (ParseFloat.parseFloat "1e200") infinity = true.
Proof. repeat split; vm_compute; reflexivity. Qed.

Lemma overflow_target : target = mkCoordinates (lit 0) (lit 150) (lit 0).
Proof. vm_compute. reflexivity. Qed.

(** [l1 * l1] is [+Infinity], so [cosAngle2] is [-Infinity / +Infinity]. *)
Lemma overflow_cosAngle2 : Kinematics.cosAngle2 target config = nan.
Proof. vm_compute. reflexivity. Qed.

Lemma overflow_c2 : Kinematics.c2 target config = nan.
Proof. vm_compute. reflexivity. Qed.

Lemma overflow_theta2Rad : Kinematics.theta2Rad target config = nan.
Proof.
  unfold Kinematics.theta2Rad. rewrite overflow_c2.
  change (PrimFloat.opp (IEEE754.host_acos H nan) = nan).
  rewrite IEEE754.host_acos_NaN. reflexivity.
Qed.

(** C8, where the code departs from it.  In the IEEE model, whatever the
    engine's [Math] functions: with both segment lengths set to 1e200
    through the settings panel (positive and finite) and the target of the
    first physics tick, [(0, 150, 0)], the elbow that [calculateIK] returns
    is NaN, not a number in [[-180, 0]].  The squares of the lengths
    overflow, [cosAngle2] is NaN, and the clamp to [[-1, 1]] passes NaN on,
    as it does for C2. *)
Theorem calculateIK_NaN_overflow :
  PrimFloat.ltb (lit 0) (segment1Length config) = true /\
  PrimFloat.ltb (segment1Length config) infinity = true /\
  PrimFloat.ltb (lit 0) (segment2Length config) = true /\
  PrimFloat.ltb (segment2Length config) infinity = true /\
  target = mkCoordinates (lit 0) (lit 150) (lit 0) /\
  elbow (Kinematics.calculateIK target config) = nan.
Proof.
  destruct overflow_config as (Hc & Hpos & Hfin).
  split; [| split; [| split; [| split; [| split]]]].
  - rewrite Hc. exact Hpos.
  - rewrite Hc. exact Hfin.
  - rewrite Hc. exact Hpos.
  - rewrite Hc. exact Hfin.
  - exact overflow_target.
  - unfold Kinematics.calculateIK. cbn [elbow].
    rewrite overflow_theta2Rad. vm_compute. reflexivity.
Qed.

End IEEEOverflow.

(** ** The physics tick and the mapper (C3, C5, C6) *)

Lemma Forall2_map_r {A B : Type} (P : A -> B -> Prop) (f : A -> B) (l : list A) :
  (forall a, P a (f a)) -> Forall2 P l (map f l).
Proof. intros H. induction l; simpl; constructor; auto. Qed.

Section PhysicsClaims.
Context {num : Type} {N : JSNumber num}.
Local Open Scope js_scope.

Lemma updateBall_isGripped (gx gy : num) (gripping : bool) (ball : Ball num) :
  isGripped (App.updateBall gx gy gripping ball)
  = gripping && ((Math_hypot (Ball_x ball - gx) (Ball_y ball - gy) <? lit 30)
                 || isGripped ball).
Proof.
  unfold App.updateBall.
  destruct gripping, (Math_hypot (Ball_x ball - gx) (Ball_y ball - gy) <? lit 30),
    (isGripped ball); reflexivity.
Qed.

Lemma updateBall_gripped (gx gy : num) (gripping : bool) (ball : Ball num) :
  isGripped (App.updateBall gx gy gripping ball) = true ->
  Ball_x (App.updateBall gx gy gripping ball) = gx /\
  Ball_y (App.updateBall gx gy gripping ball) = gy + lit 15 /\
  vx (App.updateBall gx gy gripping ball) = lit 0 /\
  vy (App.updateBall gx gy gripping ball) = lit 0.
Proof.
  unfold App.updateBall.
  destruct gripping, (Math_hypot (Ball_x ball - gx) (Ball_y ball - gy) <? lit 30),
    (isGripped ball); simpl; intros H; try discriminate H; repeat split.
Qed.

(** C3.  In every number model and on every tick, ball by ball: the new
    [isGripped] is [isGripping && (dist < 30 || isGripped)], with [dist] the
    distance of the ball before the tick to the gripper position of the new
    target; and a ball gripped after the tick sits at the gripper position,
    15 units further down the screen, with both velocities 0. *)
Theorem updatePhysics_grip (s : App.AppState) :
  let s' := App.updatePhysics s in
  let gripperX := BASE_X + Coordinates_x (App.target s') in
  let gripperY := BASE_Y - Coordinates_y (App.target s') in
  let gripping := App.isGripping (App.gestureRef s) in
  App.target s' = Kinematics.mapInputToCoordinates
                    (Point_x (App.inputPosRef s)) (Point_y (App.inputPosRef s))
                    (App.configRef s) /\
  Forall2
    (fun ball ball' =>
       isGripped ball'
       = gripping && ((Math_hypot (Ball_x ball - gripperX) (Ball_y ball - gripperY)
                         <? lit 30) || isGripped ball) /\
       (isGripped ball' = true ->
        Ball_x ball' = gripperX /\ Ball_y ball' = gripperY + lit 15 /\
        vx ball' = lit 0 /\ vy ball' = lit 0))
    (App.balls s) (App.balls s').
Proof.
  intros s' gripperX gripperY gripping. split; [reflexivity |].
  unfold s', App.updatePhysics. cbn [App.balls].
  apply Forall2_map_r. intros ball. split.
  - apply updateBall_isGripped.
  - apply updateBall_gripped.
Qed.
End PhysicsClaims.

Section ExactPhysics.
Local Open Scope R_scope.

Lemma updateBall_free (gx gy : R) (gripping : bool) (ball : Ball R) :
  isGripped (App.updateBall gx gy gripping ball) = false ->
  let vy1 := vy ball + 5 / 10 in
  let vx1 := vx ball * (95 / 100) in
  let y1 := Ball_y ball + vy1 in
  let x1 := Ball_x ball + vx1 in
  let floorY := BASE_Y - radius ball in
  let vx2 := if Rlt_dec floorY y1 then vx1 * (8 / 10) else vx1 in
  Ball_x (App.updateBall gx gy gripping ball) = x1 /\
  Ball_y (App.updateBall gx gy gripping ball)
    = (if Rlt_dec floorY y1 then floorY else y1) /\
  vy (App.updateBall gx gy gripping ball)
    = (if Rlt_dec floorY y1 then vy1 * - (6 / 10) else vy1) /\
  vx (App.updateBall gx gy gripping ball)
    = (if Rlt_dec x1 0 then - vx2 else if Rlt_dec 600 x1 then - vx2 else vx2).
Proof.
  unfold App.updateBall.
  destruct (gripping && _)%bool eqn:E1, (negb gripping) eqn:E2, (isGripped ball) eqn:E3;
    simpl; intros Hg; try discriminate Hg;
    unfold ExactReal.ltb; repeat destruct Rlt_dec; simpl; repeat split; try lra.
Qed.


(** C6, as amended.  [mapInputToCoordinates] clamps both inputs to
    [[0, 1]] and returns [x = clampedX * CANVAS_WIDTH - BASE_X],
    [y = BASE_Y - clampedY * CANVAS_HEIGHT], [z = 0].  The input
    [(0.5, 1.0)] yields [y = BASE_Y - CANVAS_HEIGHT], which is the lowest
    [y] the function returns; the highest, [BASE_Y], is returned for
    [normY = 0]. *)
Theorem mapInputToCoordinates_exact (normX normY : R) (config : ArmConfig R) :
  let clampedX := Rmax 0 (Rmin 1 normX) in
  let clampedY := Rmax 0 (Rmin 1 normY) in
  let out := Kinematics.mapInputToCoordinates normX normY config in
  (0 <= clampedX <= 1 /\ 0 <= clampedY <= 1) /\
  out = mkCoordinates (clampedX * CANVAS_WIDTH - BASE_X)
                      (BASE_Y - clampedY * CANVAS_HEIGHT) 0 /\
  Coordinates_y (Kinematics.mapInputToCoordinates (1 / 2) 1 config)
    = BASE_Y - CANVAS_HEIGHT /\
  Coordinates_y (Kinematics.mapInputToCoordinates normX 0 config) = BASE_Y /\
  BASE_Y - CANVAS_HEIGHT <= Coordinates_y out <= BASE_Y.
Proof.
  intros clampedX clampedY out.
  assert (Hc : forall v, 0 <= Rmax 0 (Rmin 1 v) <= 1).
  { intros v. unfold Rmax, Rmin. repeat destruct Rle_dec; lra. }
  split; [split; apply Hc |].
  split; [reflexivity |].
  unfold out, Kinematics.mapInputToCoordinates, BASE_Y, CANVAS_HEIGHT. simpl.
  pose proof (Hc normY) as Hy.
  rewrite (Rmin_left 1 1) by lra. rewrite (Rmax_right 0 1) by lra.
  rewrite (Rmin_right 1 0) by lra. rewrite (Rmax_left 0 0) by lra.
  repeat split; lra.
Qed.

(** C6 as stated calls [y] at [(0.5, 1.0)] the topmost coordinate: it is
    [-50], and [(0.5, 0)] maps to [350], which is higher. *)
Lemma mapInputToCoordinates_topmost_counterexample :
  Coordinates_y (Kinematics.mapInputToCoordinates (1 / 2) 1 DEFAULT_ARM_CONFIG) = -50 /\
  Coordinates_y (Kinematics.mapInputToCoordinates (1 / 2) 0 DEFAULT_ARM_CONFIG) = 350.
Proof.
  unfold Kinematics.mapInputToCoordinates, BASE_Y, CANVAS_HEIGHT. simpl.
  rewrite (Rmin_left 1 1) by lra. rewrite (Rmax_right 0 1) by lra.
  rewrite (Rmin_right 1 0) by lra. rewrite (Rmax_left 0 0) by lra.
  split; lra.
Qed.

End ExactPhysics.

(** ** The classifier and the tracking loop (C4, C7) *)

Section GestureFacts.
Context {num : Type} {N : JSNumber num}.
Local Open Scope js_scope.

(** The classifier on a hand whose six landmarks it reads are there. *)
Lemma analyzeGesture_eq (landmarks : list (Point num))
  (wrist thumbTip indexTip middleTip ringTip pinkyTip : Point num) :
  nth_error landmarks 0 = Some wrist ->
  nth_error landmarks 4 = Some thumbTip ->
  nth_error landmarks 8 = Some indexTip ->
  nth_error landmarks 12 = Some middleTip ->
  nth_error landmarks 16 = Some ringTip ->
  nth_error landmarks 20 = Some pinkyTip ->
  let folded := fun tip : Point num =>
    Math_hypot (Point_x tip - Point_x wrist) (Point_y tip - Point_y wrist)
      <? decimal 25 100 in
  let foldedCount :=
    List.length (filter folded [indexTip; middleTip; ringTip; pinkyTip]) in
  let pinchDist :=
    Math_hypot (Point_x thumbTip - Point_x indexTip)
               (Point_y thumbTip - Point_y indexTip) in
  VisionService.analyzeGesture (Some landmarks)
  = Some (if (3 <=? foldedCount)%nat then CLOSED_FIST
          else if pinchDist <? decimal 5 100 then PINCH
          else OPEN_PALM).
Proof.
  intros H0 H4 H8 H12 H16 H20 folded foldedCount pinchDist.
  unfold VisionService.analyzeGesture.
  destruct landmarks as [| l0 ls]; [discriminate H0 |].
  rewrite H4, H8, H0.
  unfold VisionService.tips, VisionService.countFolded.
  rewrite H8, H12, H16, H20.
  fold pinchDist.
  unfold foldedCount. cbn [filter].
  change (Math_hypot (Point_x indexTip - Point_x wrist) (Point_y indexTip - Point_y wrist)
            <? decimal 25 100) with (folded indexTip).
  change (Math_hypot (Point_x middleTip - Point_x wrist) (Point_y middleTip - Point_y wrist)
            <? decimal 25 100) with (folded middleTip).
  change (Math_hypot (Point_x ringTip - Point_x wrist) (Point_y ringTip - Point_y wrist)
            <? decimal 25 100) with (folded ringTip).
  change (Math_hypot (Point_x pinkyTip - Point_x wrist) (Point_y pinkyTip - Point_y wrist)
            <? decimal 25 100) with (folded pinkyTip).
  destruct (folded indexTip), (folded middleTip), (folded ringTip), (folded pinkyTip);
    cbn [List.length Nat.leb]; destruct (pinchDist <? decimal 5 100); reflexivity.
Qed.

Lemma loop_classified (f : App.Frame) (s : App.AppState) (v : App.Video)
  (landmarks : list (Point num)) (others : list (list (Point num)))
  (pointer : Point num) (g : HandGesture) :
  App.video f = Some v ->
  (2 <=? App.readyState v)%Z = true ->
  App.isVisionReady f = true ->
  (App.currentTime v =? App.lastVideoTimeRef s) = false ->
  App.canvasContext f = true ->
  App.detections f = Some (landmarks :: others) ->
  VisionService.drawLandmarks landmarks = Some tt ->
  nth_error landmarks 5 = Some pointer ->
  VisionService.analyzeGesture (Some landmarks) = Some g ->
  exists s',
    App.loop f s = Some s' /\
    App.inputPosRef s'
    = (if HandGesture_eqb g CLOSED_FIST then App.inputPosRef s
       else mkPoint (lit 1 - Point_x pointer) (Point_y pointer)) /\
    App.gesture s' = (if HandGesture_eqb g (App.gestureRef s) then App.gesture s else g) /\
    App.lastVideoTimeRef s' = App.currentTime v.
Proof.
  intros Hv Hr Hvis Ht Hc Hd Hdraw Hp Hg.
  unfold App.loop. rewrite Hv, Hr, Hvis, Ht, Hc, Hd, Hdraw, Hp, Hg. cbn [andb negb].
  eexists. split; [reflexivity |].
  cbn [App.gestureRef App.setLastVideoTime].
  destruct (HandGesture_eqb g (App.gestureRef s)), (HandGesture_eqb g CLOSED_FIST);
    repeat split.
Qed.

(** C4.  In every number model: [analyzeGesture] returns NONE for an absent
    and for an empty landmark list; for a list that has landmarks 0, 4, 8,
    12, 16 and 20, with [foldedCount] the number of the four fingertips
    whose distance to the wrist is below 0.25, it returns CLOSED_FIST when
    [foldedCount >= 3], else PINCH when the thumb tip is nearer than 0.05 to
    the index tip, else OPEN_PALM. *)
Theorem analyzeGesture_priority (landmarks : list (Point num))
  (wrist thumbTip indexTip middleTip ringTip pinkyTip : Point num) :
  nth_error landmarks 0 = Some wrist ->
  nth_error landmarks 4 = Some thumbTip ->
  nth_error landmarks 8 = Some indexTip ->
  nth_error landmarks 12 = Some middleTip ->
  nth_error landmarks 16 = Some ringTip ->
  nth_error landmarks 20 = Some pinkyTip ->
  let folded := fun tip : Point num =>
    Math_hypot (Point_x tip - Point_x wrist) (Point_y tip - Point_y wrist)
      <? decimal 25 100 in
  let foldedCount :=
    List.length (filter folded [indexTip; middleTip; ringTip; pinkyTip]) in
  let pinchDist :=
    Math_hypot (Point_x thumbTip - Point_x indexTip)
               (Point_y thumbTip - Point_y indexTip) in
  VisionService.analyzeGesture (Some landmarks)
  = Some (if (3 <=? foldedCount)%nat then CLOSED_FIST
          else if pinchDist <? decimal 5 100 then PINCH
          else OPEN_PALM) /\
  VisionService.analyzeGesture (@None (list (Point num))) = Some NONE /\
  VisionService.analyzeGesture (Some (@nil (Point num))) = Some NONE.
Proof.
  intros H0 H4 H8 H12 H16 H20 folded foldedCount pinchDist.
  split; [| split; reflexivity].
  exact (analyzeGesture_eq landmarks wrist thumbTip indexTip middleTip ringTip
           pinkyTip H0 H4 H8 H12 H16 H20).
Qed.

(** C7, as amended.  On a frame of the tracking loop that reaches the
    classifier (video ready, a new frame, a canvas context, a detected hand
    with its 21 landmarks) the loop returns normally; if the gesture is
    CLOSED_FIST the pointer sample is left as it was; otherwise it becomes
    landmark 5 mirrored horizontally: [x = 1 - landmark.x], [y = landmark.y]. *)
Theorem loop_pointer_sample (f : App.Frame) (s : App.AppState) (v : App.Video)
  (landmarks : list (Point num)) (others : list (list (Point num)))
  (pointer : Point num) (g : HandGesture) :
  App.video f = Some v ->
  (2 <=? App.readyState v)%Z = true ->
  App.isVisionReady f = true ->
  (App.currentTime v =? App.lastVideoTimeRef s) = false ->
  App.canvasContext f = true ->
  App.detections f = Some (landmarks :: others) ->
  VisionService.drawLandmarks landmarks = Some tt ->
  nth_error landmarks 5 = Some pointer ->
  VisionService.analyzeGesture (Some landmarks) = Some g ->
  exists s',
    App.loop f s = Some s' /\
    (g = CLOSED_FIST -> App.inputPosRef s' = App.inputPosRef s) /\
    (g <> CLOSED_FIST ->
     App.inputPosRef s' = mkPoint (lit 1 - Point_x pointer) (Point_y pointer)).
Proof.
  intros Hv Hr Hvis Ht Hc Hd Hdraw Hp Hg.
  destruct (loop_classified f s v landmarks others pointer g
              Hv Hr Hvis Ht Hc Hd Hdraw Hp Hg) as (s' & Hl & Hi & _).
  exists s'. split; [exact Hl |]. rewrite Hi. split.
  - intros ->. reflexivity.
  - intros Hne. destruct g; try reflexivity. contradiction.
Qed.

End GestureFacts.


Section ExactHands.
Local Open Scope R_scope.

(** A hand held open in front of the camera: the wrist low, the four
    fingertips half the frame above it, the thumb tip apart from the index
    tip, and the index knuckle (landmark 5) a quarter in from the left. *)
Definition openHand : list (Point R) :=
  let wrist := mkPoint (1 / 2) (9 / 10) in
  let tip := mkPoint (1 / 2) (4 / 10) in
  let thumbTip := mkPoint (1 / 2) (6 / 10) in
  let knuckle := mkPoint (1 / 4) (1 / 2) in
  [ wrist; tip; tip; tip; thumbTip; knuckle; tip; tip; tip; tip; tip;
    tip; tip; tip; tip; tip; tip; tip; tip; tip; tip ].

Definition openHandFrame : App.Frame :=
  {| App.video := Some {| App.readyState := 4; App.currentTime := 0 |};
     App.isVisionReady := true;
     App.canvasContext := true;
     App.detections := Some [openHand] |}.

Lemma hypot_ge_abs (a b : R) : Rabs b <= ExactReal.hypot a b.
Proof.
  unfold ExactReal.hypot. rewrite <- sqrt_Rsqr_abs.
  apply sqrt_le_1_alt. unfold Rsqr. nra.
Qed.

Lemma hypot_not_below (a b t : R) :
  t <= Rabs b -> ExactReal.ltb (ExactReal.hypot a b) t = false.
Proof.
  intros H. apply ltb_false. pose proof (hypot_ge_abs a b). lra.
Qed.

Lemma eqb_false (a b : R) : a <> b -> ExactReal.eqb a b = false.
Proof.
  intros H. unfold ExactReal.eqb.
  destruct (Req_dec_T a b); [contradiction | reflexivity].
Qed.

Lemma openHand_gesture :
  VisionService.analyzeGesture (Some openHand) = Some OPEN_PALM.
Proof.
  rewrite (analyzeGesture_eq openHand
             (mkPoint (1 / 2) (9 / 10)) (mkPoint (1 / 2) (6 / 10))
             (mkPoint (1 / 2) (4 / 10)) (mkPoint (1 / 2) (4 / 10))
             (mkPoint (1 / 2) (4 / 10)) (mkPoint (1 / 2) (4 / 10)));
    try reflexivity.
  assert (Hf : ExactReal.ltb (ExactReal.hypot (1 / 2 - 1 / 2) (4 / 10 - 9 / 10))
                 (25 / 100) = false).
  { apply hypot_not_below. unfold Rabs. destruct Rcase_abs; lra. }
  assert (Hp : ExactReal.ltb (ExactReal.hypot (1 / 2 - 1 / 2) (6 / 10 - 4 / 10))
                 (5 / 100) = false).
  { apply hypot_not_below. unfold Rabs. destruct Rcase_abs; lra. }
  cbn. rewrite Hf, Hp. reflexivity.
Qed.

Lemma openHandFrame_loop :
  exists s',
    App.loop openHandFrame App.initialState = Some s' /\
    App.inputPosRef s' = mkPoint (1 - 1 / 4) (1 / 2).
Proof.
  destruct (loop_classified openHandFrame App.initialState
              {| App.readyState := 4; App.currentTime := 0 |}
              openHand [] (mkPoint (1 / 4) (1 / 2)) OPEN_PALM)
    as (s' & Hl & Hp & _); try reflexivity.
  - apply eqb_false. simpl. lra.
  - apply openHand_gesture.
  - exists s'. split; [exact Hl | exact Hp].
Qed.

(** C4 at the open hand: no fingertip is folded and the thumb is apart. *)
Lemma analyzeGesture_priority_witness :
  VisionService.analyzeGesture (Some openHand) = Some OPEN_PALM.
Proof.
  destruct (analyzeGesture_priority openHand
              (mkPoint (1 / 2) (9 / 10)) (mkPoint (1 / 2) (6 / 10))
              (mkPoint (1 / 2) (4 / 10)) (mkPoint (1 / 2) (4 / 10))
              (mkPoint (1 / 2) (4 / 10)) (mkPoint (1 / 2) (4 / 10))
              eq_refl eq_refl eq_refl eq_refl eq_refl eq_refl) as [Hg _].
  rewrite Hg.
  assert (Hf : ExactReal.ltb (ExactReal.hypot (1 / 2 - 1 / 2) (4 / 10 - 9 / 10))
                 (25 / 100) = false).
  { apply hypot_not_below. unfold Rabs. destruct Rcase_abs; lra. }
  assert (Hp : ExactReal.ltb (ExactReal.hypot (1 / 2 - 1 / 2) (6 / 10 - 4 / 10))
                 (5 / 100) = false).
  { apply hypot_not_below. unfold Rabs. destruct Rcase_abs; lra. }
  cbn. rewrite Hf, Hp. reflexivity.
Defined.

(** C7 at the first frame of the open hand, from the initial state. *)
Lemma loop_pointer_sample_witness :
  exists s',
    App.loop openHandFrame App.initialState = Some s' /\
    App.inputPosRef s' = mkPoint (1 - 1 / 4) (1 / 2).
Proof.
  assert (Ht : @eqb R Exact 0 (App.lastVideoTimeRef App.initialState) = false)
    by (apply eqb_false; simpl; lra).
  destruct (loop_pointer_sample openHandFrame App.initialState
              {| App.readyState := 4; App.currentTime := 0 |}
              openHand [] (mkPoint (1 / 4) (1 / 2)) OPEN_PALM
              eq_refl eq_refl eq_refl Ht eq_refl eq_refl eq_refl eq_refl
              openHand_gesture) as (s' & Hl & _ & Hp).
  exists s'. split; [exact Hl |]. apply Hp. discriminate.
Defined.

(** C7 as stated has the sample become the landmark's position.  On the
    open hand, landmark 5 is at [x = 1/4] and the gesture is OPEN_PALM, and
    the loop stores [x = 3/4]. *)
Lemma loop_pointer_counterexample :
  nth_error openHand 5 = Some (mkPoint (1 / 4) (1 / 2)) /\
  VisionService.analyzeGesture (Some openHand) = Some OPEN_PALM /\
  exists s',
    App.loop openHandFrame App.initialState = Some s' /\
    Point_x (App.inputPosRef s') = 3 / 4 /\
    Point_y (App.inputPosRef s') = 1 / 2.
Proof.
  split; [reflexivity |]. split; [apply openHand_gesture |].
  destruct openHandFrame_loop as (s' & Hl & Hp).
  exists s'. split; [exact Hl |]. rewrite Hp. simpl. split; lra.
Qed.

End ExactHands.


(** ** The configuration form (C9) *)

Section IEEEFacts.
Local Open Scope float_scope.

Lemma SFcompare_refl_finite (s : bool) (m : positive) (e : Z) :
  SFcompare (S754_finite s m e) (S754_finite s m e) = Some Eq.
Proof.
  destruct s; simpl; rewrite Z.compare_refl, Pos.compare_cont_refl; reflexivity.
Qed.

(** A number that is falsy (NaN or a zero) is not above zero. *)
Lemma falsy_not_positive (v : float) :
  ControlPanel.truthy v = false -> (0 <? v) = false.
Proof.
  unfold ControlPanel.truthy, is_nan.
  rewrite FloatAxioms.ltb_spec, !FloatAxioms.eqb_spec.
  change (Prim2SF 0) with (S754_zero false).
  destruct (Prim2SF v) as [s | s | | s m e]; try reflexivity.
  - destruct s; discriminate.
  - unfold SFeqb at 1. rewrite SFcompare_refl_finite.
    destruct s; discriminate.
Qed.

Lemma or_else_not_NaN (v : float) : is_nan (ControlPanel.or_else v 0) = false.
Proof.
  unfold ControlPanel.or_else.
  destruct (ControlPanel.truthy v) eqn:E; [| reflexivity].
  unfold ControlPanel.truthy in E.
  destruct (is_nan v); [discriminate E | reflexivity].
Qed.

Lemma or_else_positive (v : float) :
  (0 <? ControlPanel.or_else v 0) = (0 <? v).
Proof.
  unfold ControlPanel.or_else.
  destruct (ControlPanel.truthy v) eqn:E; [reflexivity |].
  now rewrite (falsy_not_positive v E).
Qed.

Lemma get_set_same (key : ControlPanel.ArmConfigKey) (v : float) (c : ArmConfig float) :
  ControlPanel.get key (ControlPanel.set key v c) = v.
Proof. destruct key; reflexivity. Qed.

Lemma get_set_other (key other : ControlPanel.ArmConfigKey) (v : float)
  (c : ArmConfig float) :
  other <> key ->
  ControlPanel.get other (ControlPanel.set key v c) = ControlPanel.get other c.
Proof. destruct key, other; intros H; try reflexivity; contradiction. Qed.

(** C9, as amended.  [handleChange(key, val)] replaces the field [key] by
    [parseFloat(val)], or by 0 when that is NaN or a zero, and leaves the
    other fields as they were.  The new value is never NaN, and it is above
    zero exactly when [parseFloat(val)] is: positivity of a segment length
    is kept only for entries that parse to a positive number. *)
Theorem handleChange_field (config : ArmConfig float)
  (key : ControlPanel.ArmConfigKey) (val : string) :
  let parsed := ParseFloat.parseFloat val in
  let config' := ControlPanel.handleChange config key val in
  ControlPanel.get key config'
    = (if is_nan parsed || (parsed =? 0) then 0 else parsed) /\
  (forall other, other <> key ->
     ControlPanel.get other config' = ControlPanel.get other config) /\
  is_nan (ControlPanel.get key config') = false /\
  (0 <? ControlPanel.get key config') = (0 <? parsed).
Proof.
  intros parsed config'. unfold config', ControlPanel.handleChange.
  rewrite get_set_same. fold parsed.
  split; [| split; [| split]].
  - unfold ControlPanel.or_else, ControlPanel.truthy.
    destruct (is_nan parsed || (parsed =? 0))%bool; reflexivity.
  - intros other Ho. now apply get_set_other.
  - apply or_else_not_NaN.
  - apply or_else_positive.
Qed.

(** C9 as stated fails: from the default config, whose lengths are positive,
    the entry "0" and the cleared field both store 0 as [segment1Length],
    and the entry "-5" stores -5 as [segment2Length]. *)
Lemma handleChange_positivity_counterexample :
  (0 <? segment1Length (mkArmConfig 150 120 0)) = true /\
  (0 <? segment2Length (mkArmConfig 150 120 0)) = true /\
  segment1Length
    (ControlPanel.handleChange (mkArmConfig 150 120 0)
       ControlPanel.key_segment1Length "0") = 0 /\
  segment1Length
    (ControlPanel.handleChange (mkArmConfig 150 120 0)
       ControlPanel.key_segment1Length EmptyString) = 0 /\
  segment2Length
    (ControlPanel.handleChange (mkArmConfig 150 120 0)
       ControlPanel.key_segment2Length "-5") = -5 /\
  (0 <? segment1Length
          (ControlPanel.handleChange (mkArmConfig 150 120 0)
             ControlPanel.key_segment1Length "0")) = false.
Proof. vm_compute. repeat split. Qed.

End IEEEFacts.

(** * Further properties *)

(** ** The solver: dead zone, unreachable targets, units, base angle *)

Section KinematicsExtras.
Local Open Scope R_scope.



Lemma base_eq (target : Coordinates R) (config : ArmConfig R) :
  base (Kinematics.calculateIK target config)
  = ExactReal.floor
      (ExactReal.atan2 (Coordinates_x target) (Coordinates_z target) * 180 / PI).
Proof. reflexivity. Qed.

Lemma shoulder_eq (target : Coordinates R) (config : ArmConfig R) :
  shoulder (Kinematics.calculateIK target config)
  = ExactReal.floor (Kinematics.theta1Rad target config * 180 / PI).
Proof. reflexivity. Qed.

Lemma JointAngles_ext (a b : JointAngles R) :
  base a = base b -> shoulder a = shoulder b -> elbow a = elbow b ->
  gripper a = gripper b -> a = b.
Proof. destruct a, b; simpl; intros; subst; reflexivity. Qed.







(** X4.  The mapper always hands over [z = 0], and for such a target the
    base angle only tells the side: 90 for [x > 0], -90 for [x < 0] and 0
    for [x = 0].  On the mapper's output that is the side of the clamped
    pointer relative to the middle of the canvas. *)
Theorem calculateIK_base_planar (normX normY x y : R) (config config' : ArmConfig R) :
  base (Kinematics.calculateIK (mkCoordinates x y 0) config)
  = (if Rlt_dec 0 x then 90 else if Rlt_dec x 0 then -90 else 0) /\
  base (Kinematics.calculateIK
          (Kinematics.mapInputToCoordinates normX normY config') config)
  = (if Rlt_dec (1 / 2) (Rmax 0 (Rmin 1 normX)) then 90
     else if Rlt_dec (Rmax 0 (Rmin 1 normX)) (1 / 2) then -90 else 0).
Proof.
  assert (Hb : forall x0 y0 c,
             base (Kinematics.calculateIK (mkCoordinates x0 y0 0) c)
             = (if Rlt_dec 0 x0 then 90 else if Rlt_dec x0 0 then -90 else 0)).
  { intros x0 y0 c. rewrite base_eq. simpl. unfold ExactReal.atan2.
    destruct (Rlt_dec 0 0) as [H00 | _]; [lra |].
    destruct (Rlt_dec 0 x0); [| destruct (Rlt_dec x0 0)].
    - replace (PI / 2 * 180 / PI) with (IZR 90) by (field; apply PI_neq0).
      apply floor_IZR.
    - replace (- (PI / 2) * 180 / PI) with (IZR (-90)) by (field; apply PI_neq0).
      apply floor_IZR.
    - replace (0 * 180 / PI) with (IZR 0) by (field; apply PI_neq0).
      apply floor_IZR. }
  split; [apply Hb |].
  unfold Kinematics.mapInputToCoordinates. cbv zeta.
  change (@lit R Exact 0) with 0.
  rewrite Hb. unfold CANVAS_WIDTH, BASE_X. simpl.
  set (cx := Rmax 0 (Rmin 1 normX)).
  repeat destruct Rlt_dec; try reflexivity; exfalso; lra.
Qed.

Lemma clamp_unit (v : R) : 0 <= Rmax 0 (Rmin 1 v) <= 1.
Proof. unfold Rmax, Rmin. repeat destruct Rle_dec; lra. Qed.

Lemma clamp_unit_id (v : R) : 0 <= v <= 1 -> Rmax 0 (Rmin 1 v) = v.
Proof. intros H. unfold Rmax, Rmin. repeat destruct Rle_dec; lra. Qed.

(** X5.  [mapInputToCoordinates] never reads its config; samples outside
    the unit square are mapped as the nearest point of the square; and
    every target it returns has [-300 <= x <= 300] and [z = 0]. *)
Theorem mapInputToCoordinates_workspace (normX normY : R)
  (config config' : ArmConfig R) :
  Kinematics.mapInputToCoordinates normX normY config
  = Kinematics.mapInputToCoordinates normX normY config' /\
  Kinematics.mapInputToCoordinates normX normY config
  = Kinematics.mapInputToCoordinates
      (Rmax 0 (Rmin 1 normX)) (Rmax 0 (Rmin 1 normY)) config /\
  -300 <= Coordinates_x (Kinematics.mapInputToCoordinates normX normY config) <= 300 /\
  Coordinates_z (Kinematics.mapInputToCoordinates normX normY config) = 0.
Proof.
  split; [reflexivity |]. split; [| split; [| reflexivity]].
  - unfold Kinematics.mapInputToCoordinates. simpl.
    now rewrite !(clamp_unit_id _ (clamp_unit _)).
  - unfold Kinematics.mapInputToCoordinates, CANVAS_WIDTH, BASE_X. simpl.
    pose proof (clamp_unit normX). lra.
Qed.

(** X6.  Screen to arm frame and back: the gripper position that the
    physics tick derives from the mapped target is the clamped sample times
    the canvas size, so it lies inside the 600 x 400 canvas; and on the unit
    square the mapper is undone by [(x + BASE_X) / CANVAS_WIDTH] and
    [(BASE_Y - y) / CANVAS_HEIGHT]. *)
Theorem mapInputToCoordinates_round_trip (normX normY : R) (config : ArmConfig R) :
  let out := Kinematics.mapInputToCoordinates normX normY config in
  App.gripperVisX out = Rmax 0 (Rmin 1 normX) * CANVAS_WIDTH /\
  App.gripperVisY out = Rmax 0 (Rmin 1 normY) * CANVAS_HEIGHT /\
  0 <= App.gripperVisX out <= 600 /\
  0 <= App.gripperVisY out <= 400 /\
  (0 <= normX <= 1 -> (Coordinates_x out + BASE_X) / CANVAS_WIDTH = normX) /\
  (0 <= normY <= 1 -> (BASE_Y - Coordinates_y out) / CANVAS_HEIGHT = normY).
Proof.
  intros out. unfold out, App.gripperVisX, App.gripperVisY,
    Kinematics.mapInputToCoordinates, CANVAS_WIDTH, CANVAS_HEIGHT, BASE_X, BASE_Y.
  simpl.
  pose proof (clamp_unit normX) as Hx. pose proof (clamp_unit normY) as Hy.
  repeat split; try lra.
  - intros H. rewrite (clamp_unit_id _ H). field.
  - intros H. rewrite (clamp_unit_id _ H). field.
Qed.

End KinematicsExtras.

(** ** The renderer's forward kinematics *)

Section ArmSimulationExtras.
Local Open Scope R_scope.

(** X7.  Whatever the angles, the drawing keeps the arm rigid and anchored:
    the first joint is at [(BASE_X, BASE_Y)], the first link has length
    [l1], the second [l2], and the gripper is never further than
    [|l1| + |l2|] from the base. *)
Theorem positions_rigid (a : JointAngles R) (config : ArmConfig R) :
  let ps := ArmSimulation.positions a config in
  let l1 := segment1Length config in
  let l2 := segment2Length config in
  ArmSimulation.p0 ps = mkPoint BASE_X BASE_Y /\
  ArmSimulation.gripperPos a config = ArmSimulation.p2 ps /\
  Rsqr (Point_x (ArmSimulation.p1 ps) - Point_x (ArmSimulation.p0 ps))
  + Rsqr (Point_y (ArmSimulation.p1 ps) - Point_y (ArmSimulation.p0 ps)) = Rsqr l1 /\
  Rsqr (Point_x (ArmSimulation.p2 ps) - Point_x (ArmSimulation.p1 ps))
  + Rsqr (Point_y (ArmSimulation.p2 ps) - Point_y (ArmSimulation.p1 ps)) = Rsqr l2 /\
  Rsqr (Point_x (ArmSimulation.p2 ps) - Point_x (ArmSimulation.p0 ps))
  + Rsqr (Point_y (ArmSimulation.p2 ps) - Point_y (ArmSimulation.p0 ps))
    <= Rsqr (Rabs l1 + Rabs l2).
Proof.
  intros ps l1 l2.
  unfold ps, ArmSimulation.gripperPos, ArmSimulation.positions, ArmSimulation.toRad.
  simpl. fold l1 l2.
  set (a1 := shoulder a * PI / 180). set (a2 := (shoulder a + elbow a) * PI / 180).
  pose proof (sin2_cos2 a1) as H1. pose proof (sin2_cos2 a2) as H2.
  unfold Rsqr in *.
  set (c1 := cos a1) in *. set (s1 := sin a1) in *.
  set (c2 := cos a2) in *. set (s2 := sin a2) in *.
  split; [reflexivity |]. split; [reflexivity |].
  split; [| split].
  - transitivity (l1 * l1 * (s1 * s1 + c1 * c1)); [ring | rewrite H1; ring].
  - transitivity (l2 * l2 * (s2 * s2 + c2 * c2)); [ring | rewrite H2; ring].
  - assert (Hcs : (c1 * c2 + s1 * s2) * (c1 * c2 + s1 * s2) <= 1).
    { assert (Hid : (c1 * c2 + s1 * s2) * (c1 * c2 + s1 * s2)
                    + (c1 * s2 - s1 * c2) * (c1 * s2 - s1 * c2)
                    = (s1 * s1 + c1 * c1) * (s2 * s2 + c2 * c2)) by ring.
      rewrite H1, H2 in Hid.
      pose proof (Rle_0_sqr (c1 * s2 - s1 * c2)) as Hw. unfold Rsqr in Hw. lra. }
    set (q := c1 * c2 + s1 * s2) in *.
    assert (Hq : -1 <= q <= 1) by nra.
    assert (Hab : l1 * l2 * q <= Rabs l1 * Rabs l2).
    { rewrite <- Rabs_mult. set (m := l1 * l2) in *.
      unfold Rabs. destruct (Rcase_abs m); nra. }
    assert (Hl1 : Rabs l1 * Rabs l1 = l1 * l1).
    { rewrite <- Rabs_mult. apply Rabs_pos_eq. nra. }
    assert (Hl2 : Rabs l2 * Rabs l2 = l2 * l2).
    { rewrite <- Rabs_mult. apply Rabs_pos_eq. nra. }
    transitivity (l1 * l1 * (s1 * s1 + c1 * c1) + l2 * l2 * (s2 * s2 + c2 * c2)
                  + 2 * (l1 * l2 * q)).
    + apply Req_le. unfold q. ring.
    + rewrite H1, H2. nra.
Qed.

End ArmSimulationExtras.

(** ** The physics tick over time *)

Section PhysicsFrame.
Context {num : Type} {N : JSNumber num}.
Local Open Scope js_scope.

Lemma updateBall_identity (gx gy : num) (gripping : bool) (ball : Ball num) :
  Ball_id (App.updateBall gx gy gripping ball) = Ball_id ball /\
  color (App.updateBall gx gy gripping ball) = color ball /\
  radius (App.updateBall gx gy gripping ball) = radius ball.
Proof.
  unfold App.updateBall.
  destruct (if negb gripping then false else _); repeat split.
Qed.

(** X8.  A physics tick writes only [target], [angles] and [balls].  The
    new angles are those of [calculateIK] at the new target with the gripper
    set to 100 under PINCH and to 0 otherwise; the balls keep their number,
    order, ids, colours and radii. *)
Theorem updatePhysics_frame (s : App.AppState) :
  let s' := App.updatePhysics s in
  App.config s' = App.config s /\
  App.gesture s' = App.gesture s /\
  App.inputPosRef s' = App.inputPosRef s /\
  App.lastVideoTimeRef s' = App.lastVideoTimeRef s /\
  App.configRef s' = App.configRef s /\
  App.gestureRef s' = App.gestureRef s /\
  App.angles s'
  = mkJointAngles
      (base (Kinematics.calculateIK (App.target s') (App.configRef s)))
      (shoulder (Kinematics.calculateIK (App.target s') (App.configRef s)))
      (elbow (Kinematics.calculateIK (App.target s') (App.configRef s)))
      (if HandGesture_eqb (App.gestureRef s) PINCH then lit 100 else lit 0) /\
  List.length (App.balls s') = List.length (App.balls s) /\
  map Ball_id (App.balls s') = map Ball_id (App.balls s) /\
  map color (App.balls s') = map color (App.balls s) /\
  map radius (App.balls s') = map radius (App.balls s).
Proof.
  intros s'. unfold s', App.updatePhysics. cbn.
  repeat split; try reflexivity.
  - apply length_map.
  - rewrite map_map. apply map_ext. intros b. apply updateBall_identity.
  - rewrite map_map. apply map_ext. intros b. apply updateBall_identity.
  - rewrite map_map. apply map_ext. intros b. apply updateBall_identity.
Qed.

Lemma tickAt_refs (s : App.AppState) (p : Point num) :
  App.gestureRef (AppEvents.tickAt s p) = App.gestureRef s /\
  App.configRef (AppEvents.tickAt s p) = App.configRef s.
Proof. split; reflexivity. Qed.

Lemma fold_tickAt_refs (pointers : list (Point num)) (s : App.AppState) :
  App.gestureRef (fold_left AppEvents.tickAt pointers s) = App.gestureRef s /\
  App.configRef (fold_left AppEvents.tickAt pointers s) = App.configRef s.
Proof.
  revert s. induction pointers as [| p ps IH]; intros s; [split; reflexivity |].
  simpl. destruct (IH (AppEvents.tickAt s p)) as [-> ->]. apply tickAt_refs.
Qed.

Lemma updateBall_held (gx gy : num) (ball : Ball num) :
  isGripped ball = true ->
  isGripped (App.updateBall gx gy true ball) = true.
Proof.
  intros H. unfold App.updateBall. rewrite H.
  destruct (true && _)%bool; reflexivity.
Qed.

Lemma fold_tickAt_held (pointers : list (Point num)) (s : App.AppState) :
  App.gestureRef s = PINCH ->
  Forall2 (fun ball ball' => isGripped ball = true -> isGripped ball' = true)
    (App.balls s) (App.balls (fold_left AppEvents.tickAt pointers s)).
Proof.
  revert s. induction pointers as [| p ps IH]; intros s Hg.
  - simpl. induction (App.balls s); constructor; auto.
  - simpl.
    assert (Hg' : App.gestureRef (AppEvents.tickAt s p) = PINCH) by exact Hg.
    specialize (IH (AppEvents.tickAt s p) Hg').
    change (App.balls (AppEvents.tickAt s p))
      with (map (App.updateBall
                   (App.gripperVisX (Kinematics.mapInputToCoordinates
                                       (Point_x p) (Point_y p) (App.configRef s)))
                   (App.gripperVisY (Kinematics.mapInputToCoordinates
                                       (Point_x p) (Point_y p) (App.configRef s)))
                   (App.isGripping (App.gestureRef s))) (App.balls s)) in IH.
    rewrite Hg in IH. change (App.isGripping PINCH) with true in IH.
    set (f := App.updateBall _ _ true) in IH.
    set (l' := App.balls (fold_left AppEvents.tickAt ps (AppEvents.tickAt s p))) in *.
    clearbody l'. revert l' IH.
    induction (App.balls s) as [| b bs IHb]; intros l' IH; inversion IH; subst;
      constructor.
    + intros Hb. apply H1. apply updateBall_held, Hb.
    + apply IHb. assumption.
Qed.

(** X9.  Carrying: while the gesture read by the physics tick stays PINCH, a
    gripped ball stays gripped through any sequence of pointer moves, however
    far each one jumps, and after the last tick it hangs 15 units below the
    gripper position of the last pointer, at rest. *)
Theorem pinch_carries_ball (s : App.AppState) (pointers : list (Point num))
  (last : Point num) :
  App.gestureRef s = PINCH ->
  let target :=
    Kinematics.mapInputToCoordinates (Point_x last) (Point_y last) (App.configRef s) in
  Forall2
    (fun ball ball' =>
       isGripped ball = true ->
       isGripped ball' = true /\
       Ball_x ball' = App.gripperVisX target /\
       Ball_y ball' = App.gripperVisY target + lit 15 /\
       vx ball' = lit 0 /\ vy ball' = lit 0)
    (App.balls s) (App.balls (fold_left AppEvents.tickAt (pointers ++ [last]) s)).
Proof.
  intros Hg target.
  rewrite fold_left_app. cbn [fold_left].
  pose proof (fold_tickAt_held pointers s Hg) as Hheld.
  destruct (fold_tickAt_refs pointers s) as [Hgr Hcr].
  set (s1 := fold_left AppEvents.tickAt pointers s) in *.
  change (App.balls (AppEvents.tickAt s1 last))
    with (map (App.updateBall
                 (App.gripperVisX (Kinematics.mapInputToCoordinates
                                     (Point_x last) (Point_y last) (App.configRef s1)))
                 (App.gripperVisY (Kinematics.mapInputToCoordinates
                                     (Point_x last) (Point_y last) (App.configRef s1)))
                 (App.isGripping (App.gestureRef s1))) (App.balls s1)).
  rewrite Hgr, Hcr, Hg. fold target. change (App.isGripping PINCH) with true.
  induction Hheld as [| b b1 bs bs1 Hb _ IH]; simpl; constructor; [| exact IH].
  intros Hgb. specialize (Hb Hgb).
  pose proof (updateBall_held (App.gripperVisX target) (App.gripperVisY target) b1 Hb)
    as Hh.
  split; [exact Hh |].
  exact (updateBall_gripped _ _ _ _ Hh).
Qed.

End PhysicsFrame.

Section ExactPhysicsExtras.
Local Open Scope R_scope.

(** X10.  In exact arithmetic, a ball that is free after a tick is never
    below the floor line [BASE_Y - radius], its horizontal speed has shrunk
    to at most 0.95 of what it was, and its vertical speed is at most that of
    the free fall, [|vy + 0.5|]. *)
Theorem updatePhysics_free_bounds (s : App.AppState) :
  Forall2
    (fun ball ball' : Ball R =>
       isGripped ball' = false ->
       Ball_y ball' <= BASE_Y - radius ball' /\
       Rabs (vx ball') <= 95 / 100 * Rabs (vx ball) /\
       Rabs (vy ball') <= Rabs (vy ball + 5 / 10))
    (App.balls s) (App.balls (App.updatePhysics s)).
Proof.
  unfold App.updatePhysics. cbn [App.balls].
  apply Forall2_map_r. intros ball Hfree.
  destruct (updateBall_identity
              (App.gripperVisX (Kinematics.mapInputToCoordinates
                 (Point_x (App.inputPosRef s)) (Point_y (App.inputPosRef s))
                 (App.configRef s)))
              (App.gripperVisY (Kinematics.mapInputToCoordinates
                 (Point_x (App.inputPosRef s)) (Point_y (App.inputPosRef s))
                 (App.configRef s)))
              (App.isGripping (App.gestureRef s)) ball) as (_ & _ & Hr).
  rewrite Hr.
  pose proof (updateBall_free _ _ _ _ Hfree) as Hu. cbv zeta in Hu.
  destruct Hu as (_ & Hy & Hvy & Hvx). rewrite Hy, Hvy, Hvx.
  set (v := vx ball). set (w := vy ball + 5 / 10).
  assert (Habs : forall r, Rabs r = r \/ Rabs r = - r).
  { intros r. unfold Rabs. destruct (Rcase_abs r); auto. }
  assert (Hpos : forall r, 0 <= Rabs r) by (intros; apply Rabs_pos).
  clear Hy Hvy Hvx Hr Hfree.
  split; [| split].
  - destruct Rlt_dec as [Hlt | Hge]; [apply Rle_refl | lra].
  - pose proof (Hpos v) as Hv0.
    repeat destruct Rlt_dec;
      match goal with |- Rabs ?e <= _ => destruct (Habs e) as [-> | ->] end;
      destruct (Habs v) as [Hv | Hv]; rewrite Hv in *; lra.
  - pose proof (Hpos w) as Hw0.
    destruct Rlt_dec;
      match goal with |- Rabs ?e <= _ => destruct (Habs e) as [-> | ->] end;
      destruct (Habs w) as [Hw | Hw]; rewrite Hw in *; lra.
Qed.

Lemma updateBall_resting (gx gy : R) (ball : Ball R) :
  Ball_y ball = BASE_Y - radius ball ->
  - (1 / 2) < vy ball <= 0 ->
  Ball_y (App.updateBall gx gy false ball) = BASE_Y - radius ball /\
  - (3 / 10) <= vy (App.updateBall gx gy false ball) < 0 /\
  radius (App.updateBall gx gy false ball) = radius ball /\
  isGripped (App.updateBall gx gy false ball) = false.
Proof.
  intros Hy Hv.
  assert (Hfree : isGripped (App.updateBall gx gy false ball) = false).
  { rewrite updateBall_isGripped. reflexivity. }
  pose proof (updateBall_free _ _ _ _ Hfree) as Hu. cbv zeta in Hu.
  destruct Hu as (_ & Hy' & Hvy' & _).
  destruct (updateBall_identity gx gy false ball) as (_ & _ & Hr).
  destruct (Rlt_dec (BASE_Y - radius ball) (Ball_y ball + (vy ball + 5 / 10)))
    as [_ | Hn]; [| exfalso; apply Hn; rewrite Hy; lra].
  rewrite Hy', Hvy'. repeat split; try assumption; lra.
Qed.

Lemma iter_updatePhysics_balls (n : nat) (s : App.AppState) :
  App.balls (Nat.iter n App.updatePhysics s)
  = map (Nat.iter n
           (App.updateBall
              (App.gripperVisX (Kinematics.mapInputToCoordinates
                 (Point_x (App.inputPosRef s)) (Point_y (App.inputPosRef s))
                 (App.configRef s)))
              (App.gripperVisY (Kinematics.mapInputToCoordinates
                 (Point_x (App.inputPosRef s)) (Point_y (App.inputPosRef s))
                 (App.configRef s)))
              (App.isGripping (App.gestureRef s))))
        (App.balls s) /\
  App.inputPosRef (Nat.iter n App.updatePhysics s) = App.inputPosRef s /\
  App.configRef (Nat.iter n App.updatePhysics s) = App.configRef s /\
  App.gestureRef (Nat.iter n App.updatePhysics s) = App.gestureRef s.
Proof.
  induction n as [| n IH].
  - split; [symmetry; apply map_id | repeat split].
  - destruct IH as (Hb & Hi & Hc & Hg).
    rewrite Nat.iter_succ.
    set (sn := Nat.iter n App.updatePhysics s) in *.
    change (App.inputPosRef (App.updatePhysics sn)) with (App.inputPosRef sn).
    change (App.configRef (App.updatePhysics sn)) with (App.configRef sn).
    change (App.gestureRef (App.updatePhysics sn)) with (App.gestureRef sn).
    change (App.balls (App.updatePhysics sn))
      with (map (App.updateBall
                   (App.gripperVisX (Kinematics.mapInputToCoordinates
                      (Point_x (App.inputPosRef sn)) (Point_y (App.inputPosRef sn))
                      (App.configRef sn)))
                   (App.gripperVisY (Kinematics.mapInputToCoordinates
                      (Point_x (App.inputPosRef sn)) (Point_y (App.inputPosRef sn))
                      (App.configRef sn)))
                   (App.isGripping (App.gestureRef sn))) (App.balls sn)).
    rewrite Hb, Hi, Hc, Hg, map_map.
    split; [| repeat split].
    apply map_ext. intros b. now rewrite Nat.iter_succ.
Qed.

(** X11.  Resting contact: with the gripper open (any gesture but PINCH), a
    ball that lies on the floor with [-0.5 < vy <= 0] is still on the floor
    after any number of ticks, with [vy] in the same range: it never leaves
    the floor and never comes to [vy = 0] again either. *)
Theorem resting_ball_stays (n : nat) (s : App.AppState) :
  App.gestureRef s <> PINCH ->
  Forall2
    (fun ball ball' : Ball R =>
       Ball_y ball = BASE_Y - radius ball ->
       - (1 / 2) < vy ball <= 0 ->
       Ball_y ball' = BASE_Y - radius ball' /\
       - (1 / 2) < vy ball' <= 0 /\
       ((0 < n)%nat -> isGripped ball' = false /\ vy ball' < 0))
    (App.balls s) (App.balls (Nat.iter n App.updatePhysics s)).
Proof.
  intros Hg.
  destruct (iter_updatePhysics_balls n s) as (-> & _).
  assert (Hopen : App.isGripping (App.gestureRef s) = false)
    by (destruct (App.gestureRef s); try reflexivity; contradiction).
  rewrite Hopen.
  apply Forall2_map_r. intros ball Hy Hv.
  set (gx := App.gripperVisX _). set (gy := App.gripperVisY _).
  set (f := App.updateBall gx gy false).
  assert (Hinv : forall k,
             Ball_y (Nat.iter k f ball) = BASE_Y - radius (Nat.iter k f ball) /\
             - (1 / 2) < vy (Nat.iter k f ball) <= 0 /\
             ((0 < k)%nat ->
              isGripped (Nat.iter k f ball) = false /\ vy (Nat.iter k f ball) < 0)).
  { induction k as [| k IH].
    - split; [exact Hy | split; [exact Hv | intros H0; inversion H0]].
    - destruct IH as (Hy' & Hv' & _). rewrite Nat.iter_succ.
      destruct (updateBall_resting gx gy (Nat.iter k f ball) Hy' Hv')
        as (Hy2 & Hv2 & Hr2 & Hg2).
      fold f in Hy2, Hv2, Hr2, Hg2.
      rewrite Hr2.
      split; [exact Hy2 | split; [lra | intros _; split; [exact Hg2 | lra]]]. }
  apply Hinv.
Qed.

Lemma resting_ball_stays_witness :
  Forall2
    (fun ball ball' : Ball R =>
       Ball_y ball = BASE_Y - radius ball ->
       - (1 / 2) < vy ball <= 0 ->
       Ball_y ball' = BASE_Y - radius ball' /\
       - (1 / 2) < vy ball' <= 0 /\
       ((0 < 3)%nat -> isGripped ball' = false /\ vy ball' < 0))
    (App.balls floorState)
    (App.balls (Nat.iter 3 App.updatePhysics floorState)).
Proof.
  apply (resting_ball_stays 3 floorState). discriminate.
Defined.

End ExactPhysicsExtras.

(** ** The classifier and the drawing helper on short and on shifted hands *)

Section VisionExtras.
Context {num : Type} {N : JSNumber num}.
Local Open Scope js_scope.

Lemma defined_nth_error {A : Type} (l : list A) (i : nat) :
  VisionService.defined (nth_error l i) = (i <? List.length l)%nat.
Proof.
  destruct (nth_error l i) eqn:E; simpl; symmetry.
  - apply Nat.ltb_lt. apply nth_error_Some. congruence.
  - apply Nat.ltb_ge. apply nth_error_None. exact E.
Qed.

Lemma nth_error_defined {A : Type} (l : list A) (i : nat) :
  (i < List.length l)%nat -> exists a, nth_error l i = Some a.
Proof.
  intros H. destruct (nth_error l i) eqn:E; [eauto |].
  apply nth_error_None in E. lia.
Qed.

Lemma analyzeGesture_defined (landmarks : list (Point num)) :
  (VisionService.analyzeGesture (Some landmarks) = None
   <-> (0 < List.length landmarks < 21)%nat) /\
  ((21 <= List.length landmarks)%nat ->
   exists g, VisionService.analyzeGesture (Some landmarks) = Some g /\ g <> NONE).
Proof.
  assert (Hlong : (21 <= List.length landmarks)%nat ->
                  exists g, VisionService.analyzeGesture (Some landmarks) = Some g
                            /\ g <> NONE).
  { intros Hlen.
    destruct (nth_error_defined landmarks 0) as [wrist H0]; [lia |].
    destruct (nth_error_defined landmarks 4) as [thumbTip H4]; [lia |].
    destruct (nth_error_defined landmarks 8) as [indexTip H8]; [lia |].
    destruct (nth_error_defined landmarks 12) as [middleTip H12]; [lia |].
    destruct (nth_error_defined landmarks 16) as [ringTip H16]; [lia |].
    destruct (nth_error_defined landmarks 20) as [pinkyTip H20]; [lia |].
    rewrite (analyzeGesture_eq landmarks wrist thumbTip indexTip middleTip
               ringTip pinkyTip H0 H4 H8 H12 H16 H20).
    eexists. split; [reflexivity |].
    destruct (3 <=? _)%nat; [discriminate |].
    destruct (_ <? _); discriminate. }
  split; [| exact Hlong].
  split.
  - intros Hthrow.
    destruct landmarks as [| p ps]; [discriminate Hthrow |].
    split; [simpl; lia |].
    destruct (Nat.lt_ge_cases (List.length (p :: ps)) 21) as [Hlt | Hge];
      [exact Hlt |].
    destruct (Hlong Hge) as (g & Hg & _). congruence.
  - intros [Hpos Hlt].
    destruct landmarks as [| p ps]; [simpl in Hpos; lia |].
    assert (H20 : nth_error (p :: ps) 20 = None) by (apply nth_error_None; lia).
    unfold VisionService.analyzeGesture.
    destruct (nth_error (p :: ps) 4); [| reflexivity].
    destruct (nth_error (p :: ps) 8) eqn:H8; [| reflexivity].
    cbn [nth_error].
    unfold VisionService.tips, VisionService.countFolded.
    rewrite H8.
    destruct (nth_error (p :: ps) 12); [| reflexivity].
    destruct (nth_error (p :: ps) 16); [| reflexivity].
    rewrite H20. reflexivity.
Qed.

Lemma drawLandmarks_defined (landmarks : list (Point num)) :
  (VisionService.drawLandmarks landmarks = Some tt
   <-> (21 <= List.length landmarks)%nat) /\
  (VisionService.drawLandmarks landmarks = None
   <-> (List.length landmarks < 21)%nat).
Proof.
  unfold VisionService.drawLandmarks.
  assert (Hall : forallb
                   (fun c => VisionService.defined (nth_error landmarks (fst c))
                             && VisionService.defined (nth_error landmarks (snd c)))
                   VisionService.connections
                 = (21 <=? List.length landmarks)%nat).
  { destruct (21 <=? List.length landmarks)%nat eqn:E.
    - apply Nat.leb_le in E. apply forallb_forall. intros [i j] Hin.
      rewrite !defined_nth_error. cbn [fst snd].
      apply andb_true_iff. split; apply Nat.ltb_lt;
        unfold VisionService.connections in Hin; cbn [In] in Hin;
        repeat (destruct Hin as [Hin | Hin]; [inversion Hin; lia |]);
        contradiction.
    - apply Nat.leb_gt in E.
      apply not_true_is_false. intros Hf.
      rewrite forallb_forall in Hf.
      specialize (Hf (19, 20)%nat).
      rewrite !defined_nth_error in Hf. cbn [fst snd] in Hf.
      assert (Hin : In (19, 20)%nat VisionService.connections)
        by (unfold VisionService.connections; cbn [In]; tauto).
      apply Hf in Hin. apply andb_true_iff in Hin. destruct Hin as [_ Hin].
      apply Nat.ltb_lt in Hin. lia. }
  rewrite Hall.
  destruct (21 <=? List.length landmarks)%nat eqn:E.
  - apply Nat.leb_le in E. repeat split; intros; try lia; try reflexivity.
    discriminate.
  - apply Nat.leb_gt in E. repeat split; intros; try lia; try reflexivity.
    discriminate.
Qed.

(** X12.  [analyzeGesture] throws exactly on a non-empty list of fewer than
    21 landmarks; on 21 or more it returns a gesture, and never NONE. *)
Theorem analyzeGesture_throws (landmarks : list (Point num)) :
  (VisionService.analyzeGesture (Some landmarks) = None
   <-> (0 < List.length landmarks < 21)%nat) /\
  ((21 <= List.length landmarks)%nat ->
   exists g, VisionService.analyzeGesture (Some landmarks) = Some g /\ g <> NONE).
Proof. exact (analyzeGesture_defined landmarks). Qed.

(** X13.  [drawLandmarks] runs through exactly when the hand has 21 or more
    landmarks; on a shorter list it throws. *)
Theorem drawLandmarks_throws (landmarks : list (Point num)) :
  (VisionService.drawLandmarks landmarks = Some tt
   <-> (21 <= List.length landmarks)%nat) /\
  (VisionService.drawLandmarks landmarks = None
   <-> (List.length landmarks < 21)%nat).
Proof. exact (drawLandmarks_defined landmarks). Qed.

End VisionExtras.

Section VisionInvariance.
Context {num : Type} {N : JSNumber num}.
Local Open Scope js_scope.

Lemma analyzeGesture_cons (p : Point num) (ps : list (Point num)) :
  VisionService.analyzeGesture (Some (p :: ps))
  = match nth_error (p :: ps) 4, nth_error (p :: ps) 8 with
    | Some thumbTip, Some indexTip =>
        match VisionService.countFolded (p :: ps) p VisionService.tips 0 with
        | None => None
        | Some foldedCount =>
            if (3 <=? foldedCount)%nat then Some CLOSED_FIST
            else if Math_hypot (Point_x thumbTip - Point_x indexTip)
                               (Point_y thumbTip - Point_y indexTip)
                    <? decimal 5 100 then Some PINCH
            else Some OPEN_PALM
        end
    | _, _ => None
    end.
Proof.
  unfold VisionService.analyzeGesture.
  change (nth_error (p :: ps) 0) with (Some p).
  destruct (nth_error (p :: ps) 4), (nth_error (p :: ps) 8); reflexivity.
Qed.

(** A map of the landmarks that keeps every [Math.hypot] of a difference
    keeps the gesture (and the TypeError). *)
Lemma analyzeGesture_map (T : Point num -> Point num) (landmarks : list (Point num)) :
  (forall p q,
     Math_hypot (Point_x (T p) - Point_x (T q)) (Point_y (T p) - Point_y (T q))
     = Math_hypot (Point_x p - Point_x q) (Point_y p - Point_y q)) ->
  VisionService.analyzeGesture (Some (map T landmarks))
  = VisionService.analyzeGesture (Some landmarks).
Proof.
  intros HT.
  destruct landmarks as [| p ps]; [reflexivity |].
  change (map T (p :: ps)) with (T p :: map T ps).
  rewrite (analyzeGesture_cons (T p) (map T ps)), (analyzeGesture_cons p ps).
  change (T p :: map T ps) with (map T (p :: ps)).
  remember (p :: ps) as l eqn:Hl. clear Hl.
  unfold VisionService.tips, VisionService.countFolded.
  rewrite !nth_error_map.
  destruct (nth_error l 4) as [thumbTip |]; [| reflexivity].
  destruct (nth_error l 8) as [indexTip |]; [| reflexivity].
  cbn [option_map].
  destruct (nth_error l 12) as [middleTip |]; [| reflexivity].
  destruct (nth_error l 16) as [ringTip |]; [| reflexivity].
  destruct (nth_error l 20) as [pinkyTip |]; [| reflexivity].
  cbn [option_map]. rewrite !HT. reflexivity.
Qed.

End VisionInvariance.

Section ExactVisionExtras.
Local Open Scope R_scope.

Lemma hypot_neg_l (a b : R) : ExactReal.hypot (- a) b = ExactReal.hypot a b.
Proof. unfold ExactReal.hypot. f_equal. ring. Qed.

(** X14.  In exact arithmetic the gesture depends only on the shape of the
    hand: moving every landmark by the same offset, or mirroring the image
    horizontally ([x] to [1 - x], as the loop does with the pointer), gives
    the same result. *)
Theorem analyzeGesture_shape_only (dx dy : R) (landmarks : list (Point R)) :
  VisionService.analyzeGesture
    (Some (map (fun p => mkPoint (Point_x p + dx) (Point_y p + dy)) landmarks))
  = VisionService.analyzeGesture (Some landmarks) /\
  VisionService.analyzeGesture
    (Some (map (fun p => mkPoint (1 - Point_x p) (Point_y p)) landmarks))
  = VisionService.analyzeGesture (Some landmarks).
Proof.
  split; apply analyzeGesture_map; intros p q; simpl.
  - f_equal; ring.
  - rewrite <- (hypot_neg_l (Point_x p - Point_x q)). f_equal. ring.
Qed.

End ExactVisionExtras.

(** ** The tracking loop: what it leaves alone, stale frames, errors *)

Section LoopExtras.
Context {num : Type} {N : JSNumber num}.
Local Open Scope js_scope.

Lemma loop_untouched (f : App.Frame) (s : App.AppState) :
  match App.loop f s with
  | None => True
  | Some s' =>
      App.config s' = App.config s /\
      App.target s' = App.target s /\
      App.angles s' = App.angles s /\
      App.balls s' = App.balls s /\
      App.configRef s' = App.configRef s /\
      App.gestureRef s' = App.gestureRef s
  end.
Proof.
  unfold App.loop.
  destruct (App.video f) as [v |]; [| repeat split].
  destruct ((2 <=? App.readyState v)%Z && App.isVisionReady f)%bool; [| repeat split].
  destruct (negb (App.currentTime v =? App.lastVideoTimeRef s)); [| repeat split].
  destruct (App.canvasContext f); [| repeat split].
  destruct (App.detections f) as [[| landmarks others] |]; try (repeat split).
  destruct (VisionService.drawLandmarks landmarks); [| exact I].
  destruct (nth_error landmarks 5); [| exact I].
  destruct (VisionService.analyzeGesture (Some landmarks)) as [g |]; [| exact I].
  cbn [App.gestureRef App.setLastVideoTime].
  destruct (negb (HandGesture_eqb g (App.gestureRef s))),
    (negb (HandGesture_eqb g CLOSED_FIST)); repeat split.
Qed.

(** X15.  Whenever [loop] returns, it has written nothing but the pointer
    sample, the time of the last video frame and the gesture: the config,
    the target, the angles, the balls and both refs read by the physics tick
    ([configRef], [gestureRef]) are as before. *)
Theorem loop_frame (f : App.Frame) (s : App.AppState) :
  match App.loop f s with
  | None => True
  | Some s' =>
      App.config s' = App.config s /\
      App.target s' = App.target s /\
      App.angles s' = App.angles s /\
      App.balls s' = App.balls s /\
      App.configRef s' = App.configRef s /\
      App.gestureRef s' = App.gestureRef s
  end.
Proof. exact (loop_untouched f s). Qed.

(** X17.  [loop] throws exactly when every gate before the drawing is passed
    (a video element that is ready, vision ready, a new frame time, a canvas
    context, at least one detected hand) and the first detected hand has
    fewer than 21 landmarks. *)
Theorem loop_throws (f : App.Frame) (s : App.AppState) :
  App.loop f s = None <->
  exists v landmarks others,
    App.video f = Some v /\
    (2 <=? App.readyState v)%Z = true /\
    App.isVisionReady f = true /\
    (App.currentTime v =? App.lastVideoTimeRef s) = false /\
    App.canvasContext f = true /\
    App.detections f = Some (landmarks :: others) /\
    (List.length landmarks < 21)%nat.
Proof.
  unfold App.loop. split.
  - destruct (App.video f) as [v |] eqn:Hv; [| discriminate].
    destruct (2 <=? App.readyState v)%Z eqn:Hr; [| discriminate].
    destruct (App.isVisionReady f) eqn:Hvis; [| discriminate].
    destruct (App.currentTime v =? App.lastVideoTimeRef s) eqn:Ht; [discriminate |].
    destruct (App.canvasContext f) eqn:Hc; [| discriminate].
    destruct (App.detections f) as [[| landmarks others] |] eqn:Hd; try discriminate.
    cbn [andb negb]. intros Hthrow.
    exists v, landmarks, others.
    do 6 (split; [solve [reflexivity | assumption] |]).
    destruct (Nat.lt_ge_cases (List.length landmarks) 21) as [Hlt | Hge];
      [exact Hlt | exfalso].
    destruct (drawLandmarks_defined landmarks) as [[_ Hdraw] _].
    rewrite (Hdraw Hge) in Hthrow.
    destruct (nth_error_defined landmarks 5) as [p Hp]; [lia |].
    rewrite Hp in Hthrow.
    destruct (analyzeGesture_defined landmarks) as [_ Hlong].
    destruct (Hlong Hge) as (g & Hg & _). rewrite Hg in Hthrow.
    discriminate Hthrow.
  - intros (v & landmarks & others & Hv & Hr & Hvis & Ht & Hc & Hd & Hlen).
    rewrite Hv, Hr, Hvis, Ht, Hc, Hd. cbn [andb negb].
    destruct (drawLandmarks_defined landmarks) as [_ [_ Hdraw]].
    now rewrite (Hdraw Hlen).
Qed.

(** X18.  The safety lock, end to end.  From a state whose refs are in sync,
    a frame classified CLOSED_FIST, the sync effects and a physics tick give
    the same target and the same base, shoulder and elbow as a tick without
    that frame; the gripper command is 0 and every ball is released. *)
Theorem fist_freezes_arm (f : App.Frame) (s : App.AppState) (v : App.Video)
  (landmarks : list (Point num)) (others : list (list (Point num)))
  (pointer : Point num) :
  App.video f = Some v ->
  (2 <=? App.readyState v)%Z = true ->
  App.isVisionReady f = true ->
  (App.currentTime v =? App.lastVideoTimeRef s) = false ->
  App.canvasContext f = true ->
  App.detections f = Some (landmarks :: others) ->
  VisionService.drawLandmarks landmarks = Some tt ->
  nth_error landmarks 5 = Some pointer ->
  VisionService.analyzeGesture (Some landmarks) = Some CLOSED_FIST ->
  App.configRef s = App.config s ->
  App.gestureRef s = App.gesture s ->
  exists s',
    App.loop f s = Some s' /\
    App.target (App.updatePhysics (App.syncRefs s'))
      = App.target (App.updatePhysics s) /\
    base (App.angles (App.updatePhysics (App.syncRefs s')))
      = base (App.angles (App.updatePhysics s)) /\
    shoulder (App.angles (App.updatePhysics (App.syncRefs s')))
      = shoulder (App.angles (App.updatePhysics s)) /\
    elbow (App.angles (App.updatePhysics (App.syncRefs s')))
      = elbow (App.angles (App.updatePhysics s)) /\
    gripper (App.angles (App.updatePhysics (App.syncRefs s'))) = lit 0 /\
    Forall (fun ball => isGripped ball = false)
      (App.balls (App.updatePhysics (App.syncRefs s'))).
Proof.
  intros Hv Hr Hvis Ht Hc Hd Hdraw Hp Hg Hcfg Hgest.
  destruct (loop_classified f s v landmarks others pointer CLOSED_FIST
              Hv Hr Hvis Ht Hc Hd Hdraw Hp Hg) as (s' & Hl & Hi & Hgs & _).
  cbn [HandGesture_eqb] in Hi.
  pose proof (loop_untouched f s) as Hframe. rewrite Hl in Hframe.
  destruct Hframe as (Hconfig & _ & _ & Hballs & _ & _).
  assert (Hgesture : App.gesture s' = CLOSED_FIST).
  { rewrite Hgs, Hgest. destruct (App.gesture s); reflexivity. }
  exists s'. split; [exact Hl |].
  unfold App.updatePhysics, App.syncRefs.
  cbn [App.target App.angles App.balls App.configRef App.gestureRef App.inputPosRef
       base shoulder elbow gripper].
  rewrite Hi, Hconfig, Hgesture, Hcfg.
  repeat split.
  cbn [App.isGripping HandGesture_eqb].
  apply Forall_forall. intros b Hin. apply in_map_iff in Hin.
  destruct Hin as (b0 & <- & _). apply updateBall_isGripped.
Qed.

End LoopExtras.

Section ExactLoopExtras.
Local Open Scope R_scope.

Lemma eqb_refl_exact (a : R) : ExactReal.eqb a a = true.
Proof.
  unfold ExactReal.eqb. destruct (Req_dec_T a a); [reflexivity | contradiction].
Qed.

(** X16.  In exact arithmetic a frame is processed once.  When the video
    is ready and vision is ready, a call of [loop] that returns leaves the
    time of that frame in [lastVideoTimeRef]; and a later call on any frame
    with the same video time, whatever it detects, changes nothing. *)
Theorem loop_stale_frame (f f' : App.Frame) (s : App.AppState)
  (v v' : App.Video) :
  App.video f = Some v ->
  (2 <=? App.readyState v)%Z = true ->
  App.isVisionReady f = true ->
  App.video f' = Some v' ->
  App.currentTime v' = App.currentTime v ->
  match App.loop f s with
  | None => True
  | Some s' =>
      App.lastVideoTimeRef s' = App.currentTime v /\
      App.loop f' s' = Some s'
  end.
Proof.
  intros Hv Hr Hvis Hv' Ht'.
  destruct (App.loop f s) as [s' |] eqn:Hl; [| exact I].
  assert (Htime : App.lastVideoTimeRef s' = App.currentTime v).
  { unfold App.loop in Hl. rewrite Hv, Hr, Hvis in Hl. cbn [andb] in Hl.
    destruct (@eqb R Exact (App.currentTime v) (App.lastVideoTimeRef s)) eqn:Ht;
      cbn [negb] in Hl.
    - inversion Hl; subst s'. change (@eqb R Exact) with ExactReal.eqb in Ht.
      unfold ExactReal.eqb in Ht.
      destruct (Req_dec_T (App.currentTime v) (App.lastVideoTimeRef s));
        [congruence | discriminate].
    - destruct (App.canvasContext f); [| inversion Hl; reflexivity].
      destruct (App.detections f) as [[| landmarks others] |];
        try (inversion Hl; reflexivity).
      destruct (VisionService.drawLandmarks landmarks); [| discriminate Hl].
      destruct (nth_error landmarks 5); [| discriminate Hl].
      destruct (VisionService.analyzeGesture (Some landmarks)) as [g |];
        [| discriminate Hl].
      cbn [App.gestureRef App.setLastVideoTime] in Hl.
      destruct (negb (HandGesture_eqb g (App.gestureRef s))),
        (negb (HandGesture_eqb g CLOSED_FIST)); inversion Hl; reflexivity. }
  split; [exact Htime |].
  unfold App.loop. rewrite Hv', Ht', Htime.
  change (@eqb R Exact) with ExactReal.eqb. rewrite eqb_refl_exact.
  cbn [negb]. destruct ((2 <=? App.readyState v')%Z && App.isVisionReady f')%bool;
    reflexivity.
Qed.

(** X16 at the first frame of the open hand, followed by a frame of the fist
    that carries the same video time. *)
Lemma loop_stale_frame_witness :
  exists s',
    App.loop openHandFrame App.initialState = Some s' /\
    App.lastVideoTimeRef s' = 0 /\
    App.loop fistFrame s' = Some s'.
Proof.
  destruct openHandFrame_loop as (s' & Hl & _).
  pose proof (loop_stale_frame openHandFrame fistFrame App.initialState
                {| App.readyState := 4; App.currentTime := 0 |}
                {| App.readyState := 4; App.currentTime := 0 |}
                eq_refl eq_refl eq_refl eq_refl eq_refl) as Hstale.
  rewrite Hl in Hstale. destruct Hstale as [Htime Hagain].
  exists s'. split; [exact Hl |]. split; [exact Htime | exact Hagain].
Defined.

End ExactLoopExtras.

(** ** Carrying and the safety lock on concrete states *)

Section ExactSessions.
Local Open Scope R_scope.

(** X9 at [heldState]: the pointer jumps to a corner and then to the centre. *)
Lemma pinch_carries_ball_witness :
  App.gestureRef heldState = PINCH /\
  let target :=
    Kinematics.mapInputToCoordinates (1 / 2) (1 / 2) (App.configRef heldState) in
  Forall2
    (fun ball ball' =>
       isGripped ball = true ->
       isGripped ball' = true /\
       Ball_x ball' = App.gripperVisX target /\
       Ball_y ball' = App.gripperVisY target + 15 /\
       vx ball' = 0 /\ vy ball' = 0)
    (App.balls heldState)
    (App.balls (fold_left AppEvents.tickAt
                  ([mkPoint 1 0] ++ [mkPoint (1 / 2) (1 / 2)]) heldState)).
Proof.
  split; [reflexivity |].
  exact (pinch_carries_ball heldState [mkPoint 1 0] (mkPoint (1 / 2) (1 / 2)) eq_refl).
Defined.

Lemma hypot_diag (a b : R) : ExactReal.hypot (a - a) (b - b) = 0.
Proof.
  unfold ExactReal.hypot.
  replace ((a - a) * (a - a) + (b - b) * (b - b)) with 0 by ring.
  apply sqrt_0.
Qed.

Lemma fistHand_gesture :
  VisionService.analyzeGesture (Some fistHand) = Some CLOSED_FIST.
Proof.
  rewrite (analyzeGesture_eq fistHand
             (mkPoint (1 / 2) (1 / 2)) (mkPoint (1 / 2) (1 / 2))
             (mkPoint (1 / 2) (1 / 2)) (mkPoint (1 / 2) (1 / 2))
             (mkPoint (1 / 2) (1 / 2)) (mkPoint (1 / 2) (1 / 2)));
    try reflexivity.
  assert (Hf : ExactReal.ltb (ExactReal.hypot (1 / 2 - 1 / 2) (1 / 2 - 1 / 2))
                 (25 / 100) = true).
  { apply ltb_true. rewrite hypot_diag. lra. }
  cbn. rewrite Hf. reflexivity.
Qed.

(** X18 at the first frame of the fist, from the initial state. *)
Lemma fist_freezes_arm_witness :
  exists s',
    App.loop fistFrame App.initialState = Some s' /\
    App.target (App.updatePhysics (App.syncRefs s'))
      = App.target (App.updatePhysics App.initialState) /\
    gripper (App.angles (App.updatePhysics (App.syncRefs s'))) = 0 /\
    Forall (fun ball => isGripped ball = false)
      (App.balls (App.updatePhysics (App.syncRefs s'))).
Proof.
  assert (Ht : @eqb R Exact 0 (App.lastVideoTimeRef App.initialState) = false)
    by (apply eqb_false; simpl; lra).
  destruct (fist_freezes_arm fistFrame App.initialState
              {| App.readyState := 4; App.currentTime := 0 |}
              fistHand [] (mkPoint (1 / 2) (1 / 2))
              eq_refl eq_refl eq_refl Ht eq_refl eq_refl eq_refl eq_refl
              fistHand_gesture eq_refl eq_refl)
    as (s' & Hl & Htarget & _ & _ & _ & Hgrip & Hballs).
  exists s'. repeat split; assumption.
Defined.

End ExactSessions.

(** ** The manual fallback: mouse handlers *)

Section ManualFallback.
Context {num : Type} {N : JSNumber num}.
Local Open Scope js_scope.

(** X19.  The mouse buttons.  While vision is not ready, pressing the button
    makes the next physics tick (after the ref sync) command the gripper to
    100, and releasing it makes the next tick command 0 and let go of every
    ball; once vision is ready neither handler changes anything, and the
    pointer handler is idle as well, as it is on every tab but SIMULATION. *)
Theorem mouse_buttons (isVisionReady : bool) (activeTab : Tab)
  (e : AppEvents.MouseEvent) (s : App.AppState) :
  let pressed :=
    App.updatePhysics (App.syncRefs (AppEvents.handleMouseDown isVisionReady s)) in
  let released :=
    App.updatePhysics (App.syncRefs (AppEvents.handleMouseUp isVisionReady s)) in
  (isVisionReady = false ->
     gripper (App.angles pressed) = lit 100 /\
     gripper (App.angles released) = lit 0 /\
     Forall (fun ball => isGripped ball = false) (App.balls released)) /\
  (isVisionReady = true ->
     AppEvents.handleMouseDown isVisionReady s = s /\
     AppEvents.handleMouseUp isVisionReady s = s /\
     AppEvents.handleMouseMove activeTab isVisionReady e s = s) /\
  (activeTab <> SIMULATION ->
     AppEvents.handleMouseMove activeTab isVisionReady e s = s).
Proof.
  intros pressed released. split; [| split].
  - intros ->. split; [reflexivity |]. split; [reflexivity |].
    unfold released, App.updatePhysics. cbn.
    apply Forall_forall. intros b Hin. apply in_map_iff in Hin.
    destruct Hin as (b0 & <- & _). apply updateBall_isGripped.
  - intros ->. unfold AppEvents.handleMouseMove. rewrite andb_false_r.
    destruct (negb (Tab_eqb activeTab SIMULATION)); repeat split.
  - intros Htab. unfold AppEvents.handleMouseMove.
    destruct activeTab; [now contradiction Htab | reflexivity | reflexivity].
Qed.

(** X20.  The pointer handler writes the pointer sample and nothing else,
    and it writes nothing while the gesture state is CLOSED_FIST. *)
Theorem handleMouseMove_frame (activeTab : Tab) (isVisionReady : bool)
  (e : AppEvents.MouseEvent) (s : App.AppState) :
  let s' := AppEvents.handleMouseMove activeTab isVisionReady e s in
  App.setInputPos (App.inputPosRef s) s' = s /\
  (App.gesture s = CLOSED_FIST -> s' = s).
Proof.
  intros s'. unfold s', AppEvents.handleMouseMove. split.
  - destruct (negb (Tab_eqb activeTab SIMULATION)); [destruct s; reflexivity |].
    destruct (negb (HandGesture_eqb (App.gesture s) CLOSED_FIST) && negb isVisionReady);
      destruct s; reflexivity.
  - intros ->. destruct (negb (Tab_eqb activeTab SIMULATION)); reflexivity.
Qed.

(** X21.  The balls and the target of a physics tick do not depend on the
    arm: two states with the same pointer sample, gesture ref and balls get
    the same target and the same balls, whatever their configs are.  Balls
    are gripped at the pointer's marker, not at the tip the arm reaches. *)
Theorem updatePhysics_balls_ignore_config (s1 s2 : App.AppState) :
  App.inputPosRef s1 = App.inputPosRef s2 ->
  App.gestureRef s1 = App.gestureRef s2 ->
  App.balls s1 = App.balls s2 ->
  App.target (App.updatePhysics s1) = App.target (App.updatePhysics s2) /\
  App.balls (App.updatePhysics s1) = App.balls (App.updatePhysics s2).
Proof.
  intros Hi Hg Hb. unfold App.updatePhysics.
  cbn [App.target App.balls]. rewrite Hi, Hg, Hb. split; reflexivity.
Qed.

End ManualFallback.

Section ExactManualFallback.
Local Open Scope R_scope.

(** X22.  Mouse to gripper, in exact arithmetic.  On the simulation tab,
    without vision and outside CLOSED_FIST, over an element of positive
    size, the handler stores a sample inside the unit square; and when the
    mouse is inside the element, the next physics tick puts the gripper
    marker at the same fraction of the 600 x 400 canvas as the mouse has of
    the element. *)
Theorem mouse_drives_gripper (e : AppEvents.MouseEvent) (s : App.AppState) :
  App.gesture s <> CLOSED_FIST ->
  0 < AppEvents.rect_width e ->
  0 < AppEvents.rect_height e ->
  let s' := AppEvents.handleMouseMove SIMULATION false e s in
  let fx := (AppEvents.clientX e - AppEvents.rect_left e) / AppEvents.rect_width e in
  let fy := (AppEvents.clientY e - AppEvents.rect_top e) / AppEvents.rect_height e in
  (0 <= Point_x (App.inputPosRef s') <= 1 /\
   0 <= Point_y (App.inputPosRef s') <= 1) /\
  (AppEvents.rect_left e <= AppEvents.clientX e
     <= AppEvents.rect_left e + AppEvents.rect_width e ->
   AppEvents.rect_top e <= AppEvents.clientY e
     <= AppEvents.rect_top e + AppEvents.rect_height e ->
   App.gripperVisX (App.target (App.updatePhysics s')) = fx * 600 /\
   App.gripperVisY (App.target (App.updatePhysics s')) = fy * 400).
Proof.
  intros Hg Hw Hh s' fx fy.
  assert (Hs' : s' = App.setInputPos
                       (mkPoint (Rmax 0 (Rmin 1 fx)) (Rmax 0 (Rmin 1 fy))) s).
  { unfold s', AppEvents.handleMouseMove. cbn [Tab_eqb negb].
    destruct (App.gesture s); try reflexivity. now contradiction Hg. }
  rewrite Hs'. cbn [App.inputPosRef App.setInputPos Point_x Point_y].
  split; [split; apply clamp_unit |].
  intros Hx Hy.
  assert (Hfx : 0 <= fx <= 1).
  { unfold fx. split.
    - apply Rmult_le_pos; [lra |]. left. now apply Rinv_0_lt_compat.
    - apply (Rmult_le_reg_r (AppEvents.rect_width e)); [exact Hw |].
      unfold Rdiv. rewrite Rmult_assoc, Rinv_l by lra. lra. }
  assert (Hfy : 0 <= fy <= 1).
  { unfold fy. split.
    - apply Rmult_le_pos; [lra |]. left. now apply Rinv_0_lt_compat.
    - apply (Rmult_le_reg_r (AppEvents.rect_height e)); [exact Hh |].
      unfold Rdiv. rewrite Rmult_assoc, Rinv_l by lra. lra. }
  unfold App.updatePhysics, App.gripperVisX, App.gripperVisY,
    Kinematics.mapInputToCoordinates, CANVAS_WIDTH, CANVAS_HEIGHT, BASE_X, BASE_Y.
  cbn.
  rewrite !(clamp_unit_id _ (clamp_unit _)).
  rewrite (clamp_unit_id _ Hfx), (clamp_unit_id _ Hfy).
  split; ring.
Qed.

(** X22 at the initial state, the mouse a quarter in and half down an
    800 x 600 element. *)
Lemma mouse_drives_gripper_witness :
  let e := AppEvents.mkMouseEvent 210 320 10 20 800 600 in
  let s' := AppEvents.handleMouseMove SIMULATION false e App.initialState in
  App.gripperVisX (App.target (App.updatePhysics s')) = (210 - 10) / 800 * 600 /\
  App.gripperVisY (App.target (App.updatePhysics s')) = (320 - 20) / 600 * 400.
Proof.
  intros e s'.
  assert (Hg : App.gesture App.initialState <> CLOSED_FIST) by discriminate.
  assert (Hw : 0 < AppEvents.rect_width e) by (simpl; lra).
  assert (Hh : 0 < AppEvents.rect_height e) by (simpl; lra).
  destruct (mouse_drives_gripper e App.initialState Hg Hw Hh) as [_ Hin].
  apply Hin; simpl; lra.
Defined.

(** X21 at the initial state and the same state with a shorter arm. *)
Lemma updatePhysics_balls_ignore_config_witness :
  let s2 :=
    {| App.config := mkArmConfig 50 40 0;
       App.target := App.target App.initialState;
       App.angles := App.angles App.initialState;
       App.gesture := App.gesture App.initialState;
       App.balls := App.balls App.initialState;
       App.inputPosRef := App.inputPosRef App.initialState;
       App.lastVideoTimeRef := App.lastVideoTimeRef App.initialState;
       App.configRef := mkArmConfig 50 40 0;
       App.gestureRef := App.gestureRef App.initialState |} in
  App.target (App.updatePhysics (@App.initialState R Exact))
    = App.target (App.updatePhysics s2) /\
  App.balls (App.updatePhysics (@App.initialState R Exact))
    = App.balls (App.updatePhysics s2).
Proof.
  intros s2.
  exact (updatePhysics_balls_ignore_config App.initialState s2 eq_refl eq_refl eq_refl).
Defined.

End ExactManualFallback.

(** ** The serial service *)

Section SerialExtras.
Import SerialService.
Local Open Scope string_scope.
Local Open Scope list_scope.

Lemma connect_false_writer (env : ConnectEnv) (c : SerialController) :
  snd (connect env c) = false ->
  writer (fst (connect env c)) = writer c /\
  written (fst (connect env c)) = written c.
Proof.
  unfold connect.
  destruct (serialSupported env); [| split; reflexivity].
  destruct (requestPort env) as [p |]; [| split; reflexivity].
  destruct (openResolves env); [| split; reflexivity].
  destruct (writable env); [discriminate | split; reflexivity].
Qed.

Lemma disconnect_no_writer (writerCloses portCloses : bool) (c : SerialController) :
  writer c = None ->
  writer (fst (disconnect writerCloses portCloses c)) = None /\
  written (fst (disconnect writerCloses portCloses c)) = written c.
Proof.
  intros H. unfold disconnect. rewrite H.
  destruct (port c); [destruct portCloses |]; split; solve [reflexivity | exact H].
Qed.

Lemma run_not_connected (calls : list Call) (c : SerialController) :
  writer c = None ->
  connected calls c = false ->
  writer (run calls c) = None /\ written (run calls c) = written c.
Proof.
  revert c. induction calls as [| call rest IH]; intros c Hw Hc; [split; [exact Hw | reflexivity] |].
  unfold run in *. cbn [fold_left].
  destruct call as [env | ok data | wc pc]; cbn [connected] in Hc.
  - apply orb_false_elim in Hc. destruct Hc as [Hfail Hrest].
    destruct (connect_false_writer env c Hfail) as [Hw' Hwr'].
    destruct (IH (step c (Connect env))) as [H1 H2];
      [cbn [step]; now rewrite Hw' | exact Hrest |].
    split; [exact H1 |]. rewrite H2. exact Hwr'.
  - assert (Hs : step c (SendData ok data) = c)
      by (cbn [step]; unfold sendData; now rewrite Hw).
    rewrite Hs in *. now apply IH.
  - destruct (disconnect_no_writer wc pc c Hw) as [Hw' Hwr'].
    destruct (IH (step c (Disconnect wc pc))) as [H1 H2];
      [exact Hw' | exact Hrest || exact Hc |].
    split; [exact H1 |]. rewrite H2. exact Hwr'.
Qed.

(** X23.  Nothing is sent before a connection: in a session on the fresh
    controller in which no [connect] has resolved to [true], whatever else
    was called and in whatever order, no chunk was written to any port and
    the controller holds no writer. *)
Theorem serial_silent_until_connected (calls : list Call) :
  connected calls serialInstance = false ->
  written (run calls serialInstance) = [] /\
  writer (run calls serialInstance) = None.
Proof.
  intros H. destruct (run_not_connected calls serialInstance eq_refl H) as [Hw Hwr].
  split; [exact Hwr | exact Hw].
Qed.

(** X23 on a session of five calls: two sends, a connect in a browser
    without Web Serial, a connect whose [open] rejects, a disconnect. *)
Lemma serial_silent_until_connected_witness :
  let calls :=
    [ SendData true "S90,E-45";
      Connect (mkConnectEnv false None false false);
      Connect (mkConnectEnv true (Some 7) false true);
      SendData true "S0,E0";
      Disconnect true true ] in
  written (run calls serialInstance) = [] /\
  writer (run calls serialInstance) = None.
Proof.
  intros calls. exact (serial_silent_until_connected calls eq_refl).
Defined.

Lemma step_appends (c : SerialController) (call : Call) :
  exists more, written (step c call) = written c ++ more /\ Forall isLine more.
Proof.
  destruct call as [env | ok data | wc pc]; cbn [step].
  - exists []. split; [| constructor]. rewrite app_nil_r. unfold connect.
    destruct (serialSupported env); [| reflexivity].
    destruct (requestPort env); [| reflexivity].
    destruct (openResolves env); [| reflexivity].
    destruct (writable env); reflexivity.
  - unfold sendData. destruct (writer c) as [p |].
    + destruct ok.
      * exists [(p, (data ++ String (ascii_of_nat 10) EmptyString)%string)].
        split; [reflexivity |]. constructor; [| constructor]. now exists data.
      * exists []. split; [| constructor]. now rewrite app_nil_r.
    + exists []. split; [| constructor]. now rewrite app_nil_r.
  - exists []. split; [| constructor]. rewrite app_nil_r. unfold disconnect.
    destruct (writer c); [destruct wc |]; cbn [port written];
      destruct (port c); try destruct pc; reflexivity.
Qed.

(** X24.  The log of written chunks only grows, and every chunk is a line:
    whatever the session, what was written before is still there in the
    same order, and each new chunk is some data followed by one newline. *)
Theorem serial_writes_lines (calls : list Call) (c : SerialController) :
  exists more,
    written (run calls c) = written c ++ more /\ Forall isLine more.
Proof.
  revert c. induction calls as [| call rest IH]; intros c.
  - exists []. split; [| constructor]. unfold run. cbn. now rewrite app_nil_r.
  - destruct (step_appends c call) as (m1 & H1 & F1).
    destruct (IH (step c call)) as (m2 & H2 & F2).
    exists (m1 ++ m2). split.
    + unfold run in *. cbn [fold_left]. rewrite H2, H1. now rewrite app_assoc.
    + apply Forall_app. split; assumption.
Qed.

(** X25.  A whole session.  When the browser supports Web Serial, the user
    picks port [p], [open] resolves and the port is writable, [connect]
    resolves to [true]; a send then writes exactly one chunk, the data and
    a newline, to [p]; and a disconnect whose two [close] calls resolve
    leaves the controller without port or writer, so that a further send
    writes nothing. *)
Theorem serial_session (env : ConnectEnv) (p : PortId) (data late : string)
  (c : SerialController) :
  serialSupported env = true ->
  requestPort env = Some p ->
  openResolves env = true ->
  writable env = true ->
  let c1 := fst (connect env c) in
  let c2 := sendData true data c1 in
  let c3 := fst (disconnect true true c2) in
  snd (connect env c) = true /\
  written c2 = written c ++ [(p, (data ++ String (ascii_of_nat 10) EmptyString)%string)] /\
  snd (disconnect true true c2) = true /\
  port c3 = None /\ writer c3 = None /\
  sendData true late c3 = c3 /\
  written c3 = written c2.
Proof.
  intros Hs Hp Ho Hw. unfold connect, sendData, disconnect.
  rewrite Hs, Hp, Ho, Hw. cbn. repeat split.
Qed.

(** X25 on the fresh controller. *)
Lemma serial_session_witness :
  let env := mkConnectEnv true (Some 3) true true in
  let c1 := fst (connect env serialInstance) in
  let c2 := sendData true "S90,E-45" c1 in
  let c3 := fst (disconnect true true c2) in
  snd (connect env serialInstance) = true /\
  written c2 = [(3, ("S90,E-45" ++ String (ascii_of_nat 10) EmptyString)%string)] /\
  port c3 = None /\ writer c3 = None.
Proof.
  intros env c1 c2 c3.
  destruct (serial_session env 3 "S90,E-45" "late" serialInstance
              eq_refl eq_refl eq_refl eq_refl)
    as (H1 & H2 & _ & H3 & H4 & _).
  repeat split; assumption.
Defined.

End SerialExtras.

(** ** The settings panel *)

Section ControlPanelExtras.
Local Open Scope float_scope.

Lemma set_set_same (key : ControlPanel.ArmConfigKey) (v w : float)
  (c : ArmConfig float) :
  ControlPanel.set key v (ControlPanel.set key w c) = ControlPanel.set key v c.
Proof. destruct key; reflexivity. Qed.

Lemma set_set_other (key other : ControlPanel.ArmConfigKey) (v w : float)
  (c : ArmConfig float) :
  other <> key ->
  ControlPanel.set key v (ControlPanel.set other w c)
  = ControlPanel.set other w (ControlPanel.set key v c).
Proof. destruct key, other; intros H; try reflexivity; contradiction. Qed.

(** X26.  Edits compose field by field: editing one field twice keeps only
    the last entry, and edits of two different fields give the same config
    in either order. *)
Theorem handleChange_compose (config : ArmConfig float)
  (key other : ControlPanel.ArmConfigKey) (val val' : string) :
  ControlPanel.handleChange (ControlPanel.handleChange config key val') key val
  = ControlPanel.handleChange config key val /\
  (other <> key ->
   ControlPanel.handleChange (ControlPanel.handleChange config other val') key val
   = ControlPanel.handleChange (ControlPanel.handleChange config key val) other val').
Proof.
  unfold ControlPanel.handleChange. split; [apply set_set_same |].
  intros H. now apply set_set_other.
Qed.

Lemma parseFloat_not_a_number (c : ascii) (rest : string) :
  ParseFloat.isWhiteSpace c = false ->
  startsNumber c = false ->
  ParseFloat.StrDecimalLiteral (ParseFloat.trimStart (String c rest)) = ParseFloat.LNaN.
Proof.
  intros Hws Hstart. cbn [ParseFloat.trimStart]. rewrite Hws.
  destruct c as [b0 b1 b2 b3 b4 b5 b6 b7].
  destruct b0, b1, b2, b3, b4, b5, b6, b7;
    first [discriminate Hstart | reflexivity].
Qed.

(** X27.  An entry that does not start with a number is stored as 0: when
    the text is empty, or its first character is neither white space nor a
    digit, a sign, a dot or the I of Infinity, [handleChange] sets the field
    to 0, whatever follows. *)
Theorem handleChange_not_a_number (config : ArmConfig float)
  (key : ControlPanel.ArmConfigKey) (val : string) :
  match val with
  | EmptyString => true
  | String c _ => negb (ParseFloat.isWhiteSpace c) && negb (startsNumber c)
  end = true ->
  ControlPanel.handleChange config key val = ControlPanel.set key 0 config.
Proof.
  intros H. unfold ControlPanel.handleChange, ParseFloat.parseFloat.
  destruct val as [| c rest]; [reflexivity |].
  apply andb_prop in H. destruct H as [Hws Hstart].
  apply negb_true_iff in Hws. apply negb_true_iff in Hstart.
  now rewrite (parseFloat_not_a_number c rest Hws Hstart).
Qed.

(** X27 on the entry "abc" for the first segment of the default arm. *)
Lemma handleChange_not_a_number_witness :
  ControlPanel.handleChange (mkArmConfig 150 120 0)
    ControlPanel.key_segment1Length "abc"
  = mkArmConfig 0 120 0.
Proof.
  exact (handleChange_not_a_number (mkArmConfig 150 120 0)
           ControlPanel.key_segment1Length "abc" eq_refl).
Defined.

End ControlPanelExtras.
